(** * Dashboard_lyca: ingestion, price parsing and aggregation logic

    A shallow embedding of the data-handling code of the two Streamlit
    dashboards [app.py] and [app2.py]: the price-table walk with its
    [current_category] state, the price-cell check that feeds the averages
    and the price-difference table, the clinician counts per service, the
    service-coverage table and [categorize_specialization]; then the
    selected-category view, the location totals, the clinician and service
    filters with their metrics, the clinician cards, and the loading of the
    per-category price lists.

    Conventions of the embedding.
    - A Python [str] is a Rocq [string] whose characters are the code points
      0..255 (Latin-1), so the pound sign is the single character 163.  The
      character predicates below are Python's on that range.
    - A dataframe cell is [option string]: [None] is pandas' NaN (a missing
      cell), [Some s] a text cell.
    - A price is an exact rational of [Q], kept in lowest terms with [Qred],
      so equal amounts are equal terms; the coverage percentages, which
      numpy computes from integer counts, are binary64 values ([Np]).
    - A [try] block is a computation in the [exc] monad; [Raise] is the
      exception reaching the [except] clause. *)

From Stdlib Require Import Bool Arith ZArith QArith Qround Lia List Permutation.
From Stdlib Require Import Ascii String.
From Stdlib Require PrimFloat Uint63.
Import ListNotations.

Close Scope Q_scope.
Open Scope string_scope.
Open Scope bool_scope.
Open Scope list_scope.

(** ** Python string primitives on Latin-1 text *)

Module PyStr.

Definition code (c : ascii) : nat := nat_of_ascii c.

Definition between (lo hi n : nat) : bool := (lo <=? n)%nat && (n <=? hi)%nat.

(** [c.isspace()]: TAB..CR, FS..US, space, NEL and the no-break space. *)
Definition isspace (c : ascii) : bool :=
  let n := code c in
  between 9 13 n || between 28 32 n || (n =? 133)%nat || (n =? 160)%nat.

(** The ASCII digits, accepted by [float]. *)
Definition is_ascii_digit (c : ascii) : bool := between 48 57 (code c).

(** [c.isdigit()]: the ASCII digits and the superscripts 2, 3 and 1
    (178, 179, 185), which are digits for [isdigit] but not for [float]. *)
Definition isdigit_char (c : ascii) : bool :=
  let n := code c in
  is_ascii_digit c || (n =? 178)%nat || (n =? 179)%nat || (n =? 185)%nat.

(** [c.lower()]: A..Z and the accented capitals 192..222 (not the
    multiplication sign 215) move up by 32. *)
Definition lower_char (c : ascii) : ascii :=
  let n := code c in
  if between 65 90 n || (between 192 222 n && negb (n =? 215)%nat)
  then ascii_of_nat (n + 32) else c.

Fixpoint lower (s : string) : string :=
  match s with
  | EmptyString => EmptyString
  | String c s' => String (lower_char c) (lower s')
  end.

(** [sub in s] *)
Fixpoint contains (sub s : string) : bool :=
  prefix sub s ||
  match s with
  | EmptyString => false
  | String _ s' => contains sub s'
  end.

(** [s.replace(c, '')] for a one-character [c] *)
Fixpoint remove_char (c : ascii) (s : string) : string :=
  match s with
  | EmptyString => EmptyString
  | String d s' =>
      if Ascii.eqb d c then remove_char c s' else String d (remove_char c s')
  end.

Fixpoint lstrip (s : string) : string :=
  match s with
  | EmptyString => EmptyString
  | String c s' => if isspace c then lstrip s' else s
  end.

Fixpoint rstrip (s : string) : string :=
  match s with
  | EmptyString => EmptyString
  | String c s' =>
      match rstrip s' with
      | EmptyString => if isspace c then EmptyString else String c EmptyString
      | r => String c r
      end
  end.

(** [s.strip()] *)
Definition strip (s : string) : string := rstrip (lstrip s).

Fixpoint all_chars (p : ascii -> bool) (s : string) : bool :=
  match s with
  | EmptyString => true
  | String c s' => p c && all_chars p s'
  end.

(** [s.isdigit()]: non-empty and every character a digit. *)
Definition isdigit (s : string) : bool :=
  match s with
  | EmptyString => false
  | _ => all_chars isdigit_char s
  end.

(** [s.split(sep)] for a one-character separator: never the empty list. *)
Fixpoint split (sep : ascii) (s : string) : list string :=
  match s with
  | EmptyString => [EmptyString]
  | String c s' =>
      if Ascii.eqb c sep then EmptyString :: split sep s'
      else match split sep s' with
           | h :: t => String c h :: t
           | [] => [String c EmptyString]
           end
  end.

Fixpoint count_char (c : ascii) (s : string) : nat :=
  match s with
  | EmptyString => 0
  | String d s' => (if Ascii.eqb d c then 1 else 0) + count_char c s'
  end.

(** Value of a run of ASCII digits read left to right. *)
Fixpoint digits_value (acc : N) (s : string) : N :=
  match s with
  | EmptyString => acc
  | String c s' => digits_value (10 * acc + (N_of_ascii c - 48))%N s'
  end.

(** Number of characters after the first ["."], 0 when there is none. *)
Fixpoint frac_len (s : string) : nat :=
  match s with
  | EmptyString => 0
  | String c s' => if Ascii.eqb c "." then String.length s' else frac_len s'
  end.

(** [float(s)] on the strings the dashboards pass to it, which are
    non-empty mixes of [isdigit] characters and dots: such a string
    converts exactly when its digits are ASCII and it holds at most one
    dot (["5."], [".5"] and ["5.5"] convert, ["1.2.3"] and a superscript
    digit raise ValueError).  [None] is the ValueError. *)
Definition float (s : string) : option Q :=
  if all_chars (fun c => is_ascii_digit c || Ascii.eqb c ".") s
     && negb (all_chars (fun c => Ascii.eqb c ".") s)
     && (count_char "." s <=? 1)%nat
  then Some (Qred (Z.of_N (digits_value 0 (remove_char "." s))
                   # Pos.of_nat (10 ^ frac_len s))%Q)
  else None.

End PyStr.

(** ** Shared data model *)

(** A dataframe cell read by [pd.read_csv]: [None] is NaN. *)
Definition Cell : Type := option string.

(** [pd.isna(c)] *)
Definition isna (c : Cell) : bool :=
  match c with None => true | Some _ => false end.

(** [str(c)]: NaN prints as ["nan"]. *)
Definition str (c : Cell) : string :=
  match c with None => "nan" | Some s => s end.

(** The pound sign, code point 163. *)
Definition pound : ascii := "163"%char.

(** The [try]/[except] blocks: a computation either finishes with a value or
    raises into the enclosing [except]. *)
Inductive exc (A : Type) : Type :=
| Ok (a : A)
| Raise.
Arguments Ok {A} a.
Arguments Raise {A}.

Definition bind {A B : Type} (m : exc A) (k : A -> exc B) : exc B :=
  match m with Ok a => k a | Raise => Raise end.

Notation "x <- m ;; k" := (bind m (fun x => k))
  (at level 61, m at next level, right associativity).

(** [for a in l: s = body(s, a)] inside a [try] block. *)
Fixpoint for_each {A S : Type} (body : S -> A -> exc S) (l : list A) (s : S)
  : exc S :=
  match l with
  | [] => Ok s
  | a :: l' => s' <- body s a ;; for_each body l' s'
  end.

(** [round(x, 1)] of the price-difference loop, on exact rationals: to the
    nearest tenth, a tie going to the even tenth. *)
Definition round_half_even (x : Q) : Z :=
  let f := Qfloor x in
  match Qcompare (x - inject_Z f)%Q (1 # 2)%Q with
  | Lt => f
  | Gt => (f + 1)%Z
  | Eq => if Z.even f then f else (f + 1)%Z
  end.

Definition round1 (x : Q) : Q := Qred (round_half_even (x * 10)%Q # 10).

(** [sum(l)] *)
Definition sum (l : list Q) : Q := fold_left Qplus l 0%Q.

(** ** numpy arithmetic on float64 *)

Module Np.

(** The float64 of an integer (exact below 2^53, as every count is). *)
Definition of_Z (z : Z) : PrimFloat.float := PrimFloat.of_uint63 (Uint63.of_Z z).

Definition of_nat (n : nat) : PrimFloat.float := of_Z (Z.of_nat n).

(** 2^52: from there on every float64 is an integer. *)
Definition two52 : PrimFloat.float := of_Z 4503599627370496.

(** [np.rint(x)] for [x >= 0]: to the nearest integer, a tie going to the
    even one; adding and removing 2^52 rounds that way. *)
Definition rint (x : PrimFloat.float) : PrimFloat.float :=
  if PrimFloat.ltb x two52
  then PrimFloat.sub (PrimFloat.add x two52) two52
  else x.

(** [x.round(1)] of an array: [rint(x * 10.0) / 10.0]. *)
Definition round1 (x : PrimFloat.float) : PrimFloat.float :=
  PrimFloat.div (rint (PrimFloat.mul x (of_Z 10))) (of_Z 10).

(** [(count / total * 100).round(1)] *)
Definition percent (count total : nat) : PrimFloat.float :=
  round1 (PrimFloat.mul (PrimFloat.div (of_nat count) (of_nat total)) (of_Z 100)).

(** The float64 nearest to [z / 10]. *)
Definition tenths (z : Z) : PrimFloat.float := PrimFloat.div (of_Z z) (of_Z 10).

End Np.

(** ** app.py *)

Module App.

(** A row of [Lyca_prices.csv]: service name and the two location prices
    ([row.iloc[0]], [row.iloc[1]], [row.iloc[2]]). *)
Record PriceRow : Type := mkRow { col0 : Cell; col1 : Cell; col2 : Cell }.

(** What the pricing page writes for a row. *)
Inductive Rendered : Type :=
| CategoryHeading (category : string)
| ServiceLine (service canary_price orpington_price : string).

(** The three branches of the loop body at lines 398-405. *)
Inductive RowKind : Type := Blank | CategoryHeader | ServiceData.

Definition row_kind (row : PriceRow) : RowKind :=
  match col0 row with
  | None => Blank
  | Some service_name =>
      if String.eqb (PyStr.strip service_name) "" then Blank
      else if isna (col1 row) && isna (col2 row) then CategoryHeader
      else ServiceData
  end.

(** [row.iloc[i] if pd.notna(row.iloc[i]) else 'N/A'] *)
Definition shown_price (c : Cell) : string :=
  match c with Some s => s | None => "N/A" end.

Section PricingPage.

(** The text typed in the search box. *)
Variable search_price : string.

(** [search_price and search_price.lower() not in str(service_name).lower()] *)
Definition filtered_out (service_name : string) : bool :=
  negb (String.eqb search_price "")
  && negb (PyStr.contains (PyStr.lower search_price) (PyStr.lower service_name)).

(** One iteration of the loop at lines 395-422: the new value of
    [current_category] and what is written. *)
Definition show_row (current_category : option string) (row : PriceRow)
  : option string * list Rendered :=
  match col0 row with
  | None => (current_category, [])
  | Some service_name =>
      if String.eqb (PyStr.strip service_name) "" then (current_category, [])
      else if isna (col1 row) && isna (col2 row)
           then (Some service_name, [CategoryHeading service_name])
      else if filtered_out service_name then (current_category, [])
      else (current_category,
            [ServiceLine service_name (shown_price (col1 row))
                                      (shown_price (col2 row))])
  end.

(** The loop, from a given [current_category] and page so far. *)
Definition show_rows (st : option string * list Rendered)
           (rows : list PriceRow) : option string * list Rendered :=
  fold_left (fun (st : option string * list Rendered) row =>
               let (current_category', written) := show_row (fst st) row in
               (current_category', snd st ++ written))
            rows st.

(** The "All" view: [current_category = None] and an empty page. *)
Definition pricing_page (rows : list PriceRow) : option string * list Rendered :=
  show_rows (None, []) rows.

End PricingPage.

Definition heading_step (h : option string) (r : Rendered) : option string :=
  match r with CategoryHeading c => Some c | _ => h end.

(** The heading a reader finds above the end of a page: the last
    [CategoryHeading] written, if any. *)
Definition heading_above (page : list Rendered) : option string :=
  fold_left heading_step page None.

Definition header_step (h : option string) (row : PriceRow) : option string :=
  match row_kind row with CategoryHeader => col0 row | _ => h end.

(** The first cell of the last category-header row of [rows], if any. *)
Definition last_header (rows : list PriceRow) : option string :=
  fold_left header_step rows None.

(** Characters with a special meaning in a regular expression. *)
Definition regex_meta (c : ascii) : bool :=
  existsb (Ascii.eqb c)
          (list_ascii_of_string ".^$*+?{}[]\|()").

(** [Series.str.contains(pat, case=False, na=False)] on one cell, for a
    pattern free of regular-expression metacharacters, where the search is
    a substring search up to letter case.  [None]: the pattern is outside
    this fragment. *)
Definition str_contains_nocase (pat : string) (c : Cell) : option bool :=
  if existsb regex_meta (list_ascii_of_string pat) then None
  else Some (match c with
             | None => false
             | Some text => PyStr.contains (PyStr.lower pat) (PyStr.lower text)
             end).

(** Line 276: the number of mapping rows whose "Services Offered" matches. *)
Definition doctor_count (service : string) (services_offered : list Cell)
  : option nat :=
  if existsb regex_meta (list_ascii_of_string service) then None
  else Some (List.length
               (filter (fun c => match str_contains_nocase service c with
                                 | Some b => b
                                 | None => false
                                 end)
                       services_offered)).

End App.

(** ** app2.py *)

Module App2.

(** [mapped_df]: the mapping rows whose "Services Offered" is not the
    sentinel (line 96). *)
Definition mapped_df (services_offered : list string) : list string :=
  filter (fun t => negb (String.eqb t "No Match")) services_offered.

(** Lines 464-467: the counting loop over [mapped_df]. *)
Definition doctor_count (service : string) (services_offered : list string)
  : nat :=
  fold_left (fun doctor_count row =>
               if PyStr.contains service row then doctor_count + 1
               else doctor_count)
            (mapped_df services_offered) 0.

(** [str(price).replace(pound, '').replace(',', '').strip()] *)
Definition clean (price : Cell) : string :=
  PyStr.strip (PyStr.remove_char "," (PyStr.remove_char pound (str price))).

(** The test guarding every [float(price_str)]:
    [price_str and price_str != '' and 'From' not in price_str
     and price_str.replace('.', '').isdigit()] *)
Definition is_price (price_str : string) : bool :=
  negb (String.eqb price_str "")
  && negb (String.eqb price_str "")
  && negb (PyStr.contains "From" price_str)
  && PyStr.isdigit (PyStr.remove_char "." price_str).

(** [float(price_str)] inside a [try] block. *)
Definition to_float (price_str : string) : exc Q :=
  match PyStr.float price_str with
  | Some x => Ok x
  | None => Raise
  end.

(** Body of the loops at lines 647-650 and 664-667. *)
Definition add_price (prices : list Q) (price : Cell) : exc (list Q) :=
  let price_str := clean price in
  if is_price price_str
  then x <- to_float price_str ;; Ok (prices ++ [x])
  else Ok prices.

(** What one cell does to the surrounding block: it adds an amount, adds
    nothing, or raises. *)
Inductive Parsed : Type :=
| Amount (x : Q)
| NoAmount
| ValueError.

Definition parse_price (price : Cell) : Parsed :=
  match add_price [] price with
  | Ok (x :: _) => Amount x
  | Ok [] => NoAmount
  | Raise => ValueError
  end.

(** The metric shown: the average, or the text "Varies". *)
Inductive Metric : Type :=
| Average (x : Q)
| Varies.

(** Lines 645-658 (Canary Wharf) and 662-675 (Orpington), on one price
    column; the average is the value before it is formatted. *)
Definition avg_price (column : list Cell) : Metric :=
  match for_each add_price column [] with
  | Ok [] => Varies
  | Ok prices =>
      Average (Qred (sum prices / inject_Z (Z.of_nat (List.length prices)))%Q)
  | Raise => Varies
  end.

(** A row of a per-category price table after [dropna(subset=['Service'])]. *)
Record PriceRow : Type :=
  mkRow { Service : string; Canary_Wharf : Cell; Orpington : Cell }.

(** An element of [price_diff_data]. *)
Record PriceDiff : Type :=
  mkDiff { diff_service : string;
           canary_price : Q;
           orp_price : Q;
           difference : Q;
           difference_pct : Q }.

(** Body of the loop at lines 793-810. *)
Definition add_diff (price_diff_data : list PriceDiff) (row : PriceRow)
  : exc (list PriceDiff) :=
  let canary_str := clean (Canary_Wharf row) in
  let orp_str := clean (Orpington row) in
  if is_price canary_str && is_price orp_str
  then canary_price <- to_float canary_str ;;
       orp_price <- to_float orp_str ;;
       let diff := Qred (canary_price - orp_price)%Q in
       let diff_pct := if Qlt_le_dec 0 orp_price
                       then (diff / orp_price * 100)%Q else 0%Q in
       Ok (price_diff_data ++
           [mkDiff (Service row) canary_price orp_price diff (round1 diff_pct)])
  else Ok price_diff_data.

(** Lines 791-831: [Raise] is the "Price insights not available" branch. *)
Definition price_diff_data (rows : list PriceRow) : exc (list PriceDiff) :=
  for_each add_diff rows [].

End App2.

(** ** The Analytics page (the same code in app.py and app2.py) *)

Module Analytics.

(** The list comprehension [[s.strip() for s in text.split(',')]]. *)
Definition tokens (text : string) : list string :=
  map PyStr.strip (PyStr.split "," text).

(** app.py lines 516-520, app2.py lines 958-961: every token of every
    mapped clinician, in order. *)
Definition service_list (services_offered : list string) : list string :=
  fold_left (fun service_list row =>
               if negb (String.eqb row "No Match")
               then service_list ++ tokens row
               else service_list)
            services_offered [].

Fixpoint count (x : string) (l : list string) : nat :=
  match l with
  | [] => 0
  | y :: l' => (if String.eqb y x then 1 else 0) + count x l'
  end.

(** The distinct values of a list, by first occurrence. *)
Fixpoint distinct (l : list string) : list string :=
  match l with
  | [] => []
  | x :: l' => x :: filter (fun y => negb (String.eqb y x)) (distinct l')
  end.

(** [pd.Series(l).value_counts()]: each distinct value with its number of
    occurrences.  pandas orders the result by decreasing count; the order
    is not modelled. *)
Definition value_counts (l : list string) : list (string * nat) :=
  map (fun x => (x, count x l)) (distinct l).

(** A row of [service_coverage]. *)
Record Coverage : Type :=
  mkCoverage { cov_service : string; cov_clinicians : nat;
               cov_pct : PrimFloat.float }.

(** app.py lines 522-530, app2.py lines 963-970. *)
Definition service_coverage (services_offered : list string)
           (total_clinicians : nat) : list Coverage :=
  map (fun sc : string * nat =>
         mkCoverage (fst sc) (snd sc) (Np.percent (snd sc) total_clinicians))
      (value_counts (service_list services_offered)).

(** The row of the table for a service, if it has one. *)
Definition coverage_of (service : string) (table : list Coverage)
  : option Coverage :=
  find (fun r => String.eqb (cov_service r) service) table.

(** [any(word in spec_lower for word in words)] *)
Definition any_in (words : list string) (spec_lower : string) : bool :=
  existsb (fun word => PyStr.contains word spec_lower) words.

(** app.py lines 552-579, app2.py lines 991-1018. *)
Definition categorize_specialization (spec : string) : string :=
  let spec_lower := PyStr.lower spec in
  if any_in ["cardio"; "heart"] spec_lower then "Cardiology"
  else if any_in ["ortho"; "bone"; "joint"; "knee"; "hip"; "spine"] spec_lower
  then "Orthopaedics"
  else if any_in ["gastro"; "hepato"; "bowel"] spec_lower then "Gastroenterology"
  else if any_in ["breast"; "oncoplastic"] spec_lower then "Breast Care"
  else if any_in ["dermat"; "skin"] spec_lower then "Dermatology"
  else if any_in ["ent"; "ear"; "nose"; "throat"] spec_lower then "ENT"
  else if any_in ["neuro"; "brain"] spec_lower then "Neurology/Neurosurgery"
  else if any_in ["gynae"; "obstet"; "women"] spec_lower then "Women's Health"
  else if any_in ["physio"; "therapy"] spec_lower then "Physiotherapy"
  else if any_in ["gp"; "general practice"; "practitioner"] spec_lower
  then "General Practice"
  else if any_in ["urol"; "kidney"; "renal"] spec_lower then "Urology/Renal"
  else if any_in ["plastic"; "aesthetic"; "cosmetic"] spec_lower
  then "Plastic Surgery"
  else "Other Specialties".

End Analytics.

(** ** The specification's own wording

    Definitions that follow the text of the specification rather than the
    code, to be compared with the code above. *)

Module Spec.

(** The ordered rule table of the DepartmentClassifier. *)
Definition rules : list (list string * string) :=
  [ (["cardio"; "heart"], "Cardiology");
    (["ortho"; "bone"; "joint"; "knee"; "hip"; "spine"], "Orthopaedics");
    (["gastro"; "hepato"; "bowel"], "Gastroenterology");
    (["breast"; "oncoplastic"], "Breast Care");
    (["dermat"; "skin"], "Dermatology");
    (["ent"; "ear"; "nose"; "throat"], "ENT");
    (["neuro"; "brain"], "Neurology/Neurosurgery");
    (["gynae"; "obstet"; "women"], "Women's Health");
    (["physio"; "therapy"], "Physiotherapy");
    (["gp"; "general practice"; "practitioner"], "General Practice");
    (["urol"; "kidney"; "renal"], "Urology/Renal");
    (["plastic"; "aesthetic"; "cosmetic"], "Plastic Surgery") ].

(** The thirteen department labels. *)
Definition departments : list string :=
  map snd rules ++ ["Other Specialties"].

(** Lower-case the input and return the department of the first rule one
    of whose keywords occurs in it. *)
Definition classify (specialization : string) : string :=
  match find (fun rule => Analytics.any_in (fst rule) (PyStr.lower specialization))
             rules with
  | Some rule => snd rule
  | None => "Other Specialties"
  end.

(** PriceValue: a qualifier with the amount it carries. *)
Inductive PriceValue : Type :=
| Exact (amount : Q)
| From (amount : Q)
| Unavailable.

Definition numeric_char (c : ascii) : bool :=
  PyStr.is_ascii_digit c || Ascii.eqb c ".".

(** The trailing numeric portion: the longest suffix of digits and dots. *)
Fixpoint trailing_numeric (s : string) : string :=
  match s with
  | EmptyString => EmptyString
  | String _ s' => if PyStr.all_chars numeric_char s then s else trailing_numeric s'
  end.

(** CurrencyParser.parse as section 4.1 words it, on the text with the
    currency symbol, the thousands separators and the outer whitespace
    removed. *)
Definition parse (cell : string) : PriceValue :=
  let cleaned := App2.clean (Some cell) in
  if prefix "from" (PyStr.lower cleaned) then
    match PyStr.float (trailing_numeric cleaned) with
    | Some amount => From amount
    | None => Unavailable
    end
  else if (PyStr.count_char "." cleaned <=? 1)%nat
          && negb (String.eqb (PyStr.remove_char "." cleaned) "")
          && PyStr.all_chars PyStr.is_ascii_digit (PyStr.remove_char "." cleaned)
  then match PyStr.float cleaned with
       | Some amount => Exact amount
       | None => Unavailable
       end
  else Unavailable.

(** The code's cell outcome [p] is what [parse] is said to return. *)
Definition returns (p : App2.Parsed) (v : PriceValue) : Prop :=
  match p, v with
  | App2.Amount x, Exact amount => x = amount
  | App2.Amount x, From amount => x = amount
  | App2.NoAmount, Unavailable => True
  | _, _ => False
  end.

(** ServiceMembershipResolver.resolve: the sentinel gives no service,
    otherwise the trimmed non-empty comma-separated tokens. *)
Definition resolve (raw_text : string) : list string :=
  if String.eqb raw_text "No Match" then []
  else filter (fun t => negb (String.eqb t "")) (Analytics.tokens raw_text).

(** The membership of a clinician contains the service. *)
Definition offers (service raw_text : string) : bool :=
  existsb (String.eqb service) (resolve raw_text).


(** Case-insensitive substring containment of a service in a clinician's
    raw text. *)
Definition contains_nocase (service raw_text : string) : bool :=
  PyStr.contains (PyStr.lower service) (PyStr.lower raw_text).

(** The count of clinicians offering a service by that test. *)
Definition clinician_count (service : string) (services_offered : list string)
  : nat :=
  List.length (filter (contains_nocase service) services_offered).

(** The amounts of the cells of a column whose qualifier is Exact by the
    wording of section 4.1, in order. *)
Definition qualified_exact (column : list Cell) : list Q :=
  flat_map (fun c => match parse (str c) with
                     | Exact amount => [amount]
                     | _ => []
                     end)
           column.

(** The amounts of the cells of a price column that count as exact
    prices, in order. *)
Definition exact_amounts (column : list Cell) : list Q :=
  flat_map (fun c => match App2.parse_price c with
                     | App2.Amount x => [x]
                     | _ => []
                     end)
           column.

(** The mean of a list of amounts. *)
Definition mean (l : list Q) : Q :=
  Qred (sum l / inject_Z (Z.of_nat (List.length l)))%Q.

(** The location difference of a row whose two prices are both exact:
    amount and percentage of the Orpington price to one decimal (0 when
    that price is not positive); no entry otherwise. *)
Definition diff_entry (row : App2.PriceRow) : list App2.PriceDiff :=
  match App2.parse_price (App2.Canary_Wharf row),
        App2.parse_price (App2.Orpington row) with
  | App2.Amount c, App2.Amount o =>
      [App2.mkDiff (App2.Service row) c o (Qred (c - o)%Q)
         (round1 (if Qlt_le_dec 0 o then (Qred (c - o) / o * 100)%Q else 0%Q))]
  | _, _ => []
  end.

End Spec.

(** ** Sample tables *)

Module Samples.

Definition p500 : string := String pound "500".
Definition p450 : string := String pound "450".
Definition from_p450 : string := "From " ++ p450.

(** The price table [("MRI","",""), ("Head MRI", 500 pounds, From 450
    pounds)] as app.py reads it: the blank cells are NaN. *)
Definition mri_table : list App.PriceRow :=
  [ App.mkRow (Some "MRI") None None;
    App.mkRow (Some "Head MRI") (Some p500) (Some from_p450) ].

(** The same table as the rows of a per-category dataframe of app2.py. *)
Definition mri_frame : list App2.PriceRow :=
  [ App2.mkRow "MRI" None None;
    App2.mkRow "Head MRI" (Some p500) (Some from_p450) ].

(** The same with an exact Orpington price. *)
Definition mri_frame_exact : list App2.PriceRow :=
  [ App2.mkRow "MRI" None None;
    App2.mkRow "Head MRI" (Some p500) (Some p450) ].

(** A combined price table with two categories. *)
Definition head_mri : App.PriceRow :=
  App.mkRow (Some "Head MRI") (Some p500) (Some from_p450).

Definition two_categories : list App.PriceRow :=
  [ App.mkRow (Some "MRI") None None;
    head_mri;
    App.mkRow (Some "CT") None None;
    App.mkRow (Some "Head CT") (Some p450) None ].

End Samples.

(** ** app.py: the pricing page for one selected category *)

Module CategoryView.

(** The loop variables [in_category], [services_found] and the lines
    written so far (lines 428-473). *)
Record State : Type :=
  mkState { in_category : bool;
            services_found : bool;
            page : list App.Rendered }.

(** What one iteration does to the loop. *)
Inductive Step : Type :=
| Next (st : State)
| Break.

(** Body of the loop at lines 441-473. *)
Definition show_row (selected_category search_price : string)
           (st : State) (row : App.PriceRow) : Step :=
  match App.col0 row with
  | None => Next st
  | Some service_name =>
      if String.eqb (PyStr.strip service_name) "" then Next st
      else if String.eqb service_name selected_category
           then Next (mkState true (services_found st) (page st))
      else if in_category st && isna (App.col1 row) && isna (App.col2 row)
           then Break
      else if in_category st
           then if App.filtered_out search_price service_name then Next st
                else Next (mkState (in_category st) true
                             (page st ++
                              [App.ServiceLine service_name
                                 (App.shown_price (App.col1 row))
                                 (App.shown_price (App.col2 row))]))
      else Next st
  end.

(** The [for] loop with its [break]. *)
Fixpoint show_rows (selected_category search_price : string)
         (st : State) (rows : list App.PriceRow) : State :=
  match rows with
  | [] => st
  | row :: rows' =>
      match show_row selected_category search_price st row with
      | Next st' => show_rows selected_category search_price st' rows'
      | Break => st
      end
  end.

Definition is_empty (l : list App.Rendered) : bool :=
  match l with [] => true | _ => false end.

(** The view: the lines written and whether any service was found (when
    none is, the page says "No services found in this category."). *)
Definition category_page (selected_category search_price : string)
           (rows : list App.PriceRow) : State :=
  show_rows selected_category search_price (mkState false false []) rows.

End CategoryView.

(** ** app2.py: location totals of a category *)

Module PriceMetrics.

(** Body of the loops at lines 761-764 and 767-770. *)
Definition add_total (total : Q) (price : Cell) : exc Q :=
  let price_str := App2.clean price in
  if App2.is_price price_str
  then x <- App2.to_float price_str ;; Ok (total + x)%Q
  else Ok total.

(** Lines 757-785: the two totals when the pie chart is drawn, [None] when
    the page says that no data is available (both totals are 0) and [Raise]
    when it says that the chart is not available. *)
Definition location_totals (canary orpington : list Cell) : exc (option (Q * Q)) :=
  canary_total <- for_each add_total canary 0%Q ;;
  orp_total <- for_each add_total orpington 0%Q ;;
  if Qlt_le_dec 0 canary_total then Ok (Some (canary_total, orp_total))
  else if Qlt_le_dec 0 orp_total then Ok (Some (canary_total, orp_total))
  else Ok None.

(** The cell makes [float] raise. *)
Definition raises (price : Cell) : bool :=
  match App2.parse_price price with
  | App2.ValueError => true
  | _ => false
  end.

End PriceMetrics.

(** ** Shape of a pricing page *)

Module PageShape.

Definition is_heading (r : App.Rendered) : bool :=
  match r with App.CategoryHeading _ => true | App.ServiceLine _ _ _ => false end.

Definition is_service_line (r : App.Rendered) : bool := negb (is_heading r).

(** The name of the row when it is a category header. *)
Definition header_name (row : App.PriceRow) : list string :=
  match App.row_kind row, App.col0 row with
  | App.CategoryHeader, Some name => [name]
  | _, _ => []
  end.

Definition is_blank (row : App.PriceRow) : bool :=
  match App.row_kind row with App.Blank => true | _ => false end.

Definition is_service_row (row : App.PriceRow) : bool :=
  match App.row_kind row with App.ServiceData => true | _ => false end.

End PageShape.

(** ** The department rollup (app.py lines 581-599, app2.py lines 1020-1038) *)

Module Rollup.

(** [clinicians_df['Specialization'].apply(categorize_specialization)
     .value_counts()] on the column of specializations. *)
Definition dept_counts (specializations : list string) : list (string * nat) :=
  Analytics.value_counts (map Analytics.categorize_specialization specializations).

End Rollup.

(** ** The clinicians pages *)

Module Directory.

(** A row of [doctor_services_mapping.csv]. *)
Record MappingRow : Type :=
  mkClinician { Name : Cell; Specialization : string; Services_Offered : string }.

Definition is_mapped (r : MappingRow) : bool :=
  negb (String.eqb (Services_Offered r) "No Match").

Definition is_unmapped (r : MappingRow) : bool :=
  String.eqb (Services_Offered r) "No Match".

(** [df[df['Specialization'] == selected_spec]] unless "All" is selected. *)
Definition by_specialization (selected_spec : string) (df : list MappingRow)
  : list MappingRow :=
  if String.eqb selected_spec "All" then df
  else filter (fun r => String.eqb (Specialization r) selected_spec) df.

(** [df[df['Name'].str.contains(search_term, case=False, na=False)]] when
    the search box is not empty; [None] when the text holds a
    regular-expression metacharacter (see [App.str_contains_nocase]). *)
Definition by_name (search_term : string) (df : list MappingRow)
  : option (list MappingRow) :=
  if String.eqb search_term "" then Some df
  else if existsb App.regex_meta (list_ascii_of_string search_term) then None
  else Some (filter (fun r => match App.str_contains_nocase search_term (Name r) with
                              | Some b => b
                              | None => false
                              end)
                    df).

(** The radio button of app.py. *)
Inductive MappingFilter : Type := AllStatus | MappedOnly | UnmappedOnly.

(** app.py lines 211-223. *)
Definition filtered_df (selected_spec : string) (mapping_filter : MappingFilter)
           (search_term : string) (mapping_df : list MappingRow)
  : option (list MappingRow) :=
  let df := by_specialization selected_spec mapping_df in
  let df := match mapping_filter with
            | MappedOnly => filter is_mapped df
            | UnmappedOnly => filter is_unmapped df
            | AllStatus => df
            end in
  by_name search_term df.

(** The metrics "Mapped" and "Unmapped" (app.py lines 230 and 233; lines 93
    and 169 on the whole mapping). *)
Definition mapped (df : list MappingRow) : nat := List.length (filter is_mapped df).
Definition unmapped (df : list MappingRow) : nat := List.length (filter is_unmapped df).

(** The radio button of app2.py. *)
Inductive ShowOption : Type := ShowAll | ProvidersOnly.

(** [Series.replace('No Match', '-')] on "Services Offered". *)
Definition replace_no_match (r : MappingRow) : MappingRow :=
  if String.eqb (Services_Offered r) "No Match"
  then mkClinician (Name r) (Specialization r) "-"
  else r.

(** [re.compile(search_term, re.IGNORECASE).search] as the pages use it
    through [Series.str.contains]: [regex_search pat] is [None] when [re]
    rejects the pattern, and the page raises; otherwise it tells whether the
    pattern is found in a text.  The filter of line 250 is written over any
    such search, so that nothing is assumed about the patterns. *)
Definition by_name_regex (regex_search : string -> option (string -> bool))
           (search_term : string) (df : list MappingRow) : option (list MappingRow) :=
  if String.eqb search_term "" then Some df
  else match regex_search search_term with
       | None => None
       | Some found =>
           Some (filter (fun r => match Name r with
                                  | Some name => found name
                                  | None => false
                                  end)
                        df)
       end.

(** app2.py lines 239-250. *)
Definition filtered_df2 (regex_search : string -> option (string -> bool))
           (show_option : ShowOption) (selected_spec search_term : string)
           (mapping_df : list MappingRow) : option (list MappingRow) :=
  let df := match show_option with
            | ProvidersOnly => filter is_mapped mapping_df
            | ShowAll => map replace_no_match mapping_df
            end in
  by_name_regex regex_search search_term (by_specialization selected_spec df).

(** A search for the patterns whose only metacharacter is the dot, which
    stands for any character but the newline; letters match whatever their
    case.  A pattern with another metacharacter is not interpreted. *)
Fixpoint match_here (pat text : string) : bool :=
  match pat, text with
  | EmptyString, _ => true
  | String _ _, EmptyString => false
  | String p pat', String c text' =>
      (if Ascii.eqb p "."%char then negb (Ascii.eqb c "010"%char)
       else Ascii.eqb (PyStr.lower_char p) (PyStr.lower_char c))
      && match_here pat' text'
  end.

Fixpoint search_from (pat text : string) : bool :=
  match_here pat text
  || match text with
     | EmptyString => false
     | String _ text' => search_from pat text'
     end.

Definition dot_search (pat : string) : option (string -> bool) :=
  if existsb (fun c => App.regex_meta c && negb (Ascii.eqb c "."%char))
             (list_ascii_of_string pat)
  then None
  else Some (search_from pat).

(** [services not in ['No Match', '-', '']] *)
Definition has_services (services : string) : bool :=
  negb (existsb (String.eqb services) ["No Match"; "-"; ""]).

(** app2.py lines 260-264 (and 347-351): the tokens of the clinicians shown. *)
Definition service_list (df : list MappingRow) : list string :=
  fold_left (fun service_list r =>
               if has_services (Services_Offered r)
               then service_list ++ Analytics.tokens (Services_Offered r)
               else service_list)
            df [].

(** The rows that pass the specialization filter and a test of the name. *)
Definition shown (selected_spec : string) (name_ok : Cell -> bool) (r : MappingRow)
  : bool :=
  (if String.eqb selected_spec "All" then true
   else String.eqb (Specialization r) selected_spec)
  && name_ok (Name r).

(** The test of the name that a search text stands for, if it compiles. *)
Definition name_test (regex_search : string -> option (string -> bool))
           (search_term : string) : option (Cell -> bool) :=
  if String.eqb search_term "" then Some (fun _ => true)
  else match regex_search search_term with
       | None => None
       | Some found => Some (fun name => match name with
                                         | Some name => found name
                                         | None => false
                                         end)
       end.

(** What one clinician adds to [service_list]. *)
Definition row_tokens (r : MappingRow) : list string :=
  if has_services (Services_Offered r) then Analytics.tokens (Services_Offered r)
  else [].

(** The metric "Services Covered": [len(set(service_list))]. *)
Definition unique_services (df : list MappingRow) : nat :=
  List.length (Analytics.distinct (service_list df)).

(** [range(start, stop, step)] for a positive step. *)
Fixpoint range_from (fuel start stop step : nat) : list nat :=
  match fuel with
  | 0 => []
  | S fuel' => if (start <? stop)%nat then start :: range_from fuel' (start + step) stop step
               else []
  end.

Definition range (start stop step : nat) : list nat := range_from stop start stop step.

(** app2.py line 391: the cards, three to a row, for at most twelve
    clinicians ([df.iloc[i:i+num_cols]] is [firstn 3 (skipn i df)]). *)
Definition clinician_rows {A : Type} (card_filtered_df : list A) : list (list A) :=
  map (fun i => firstn 3 (skipn i card_filtered_df))
      (range 0 (Nat.min (List.length card_filtered_df) 12) 3).

(** app2.py line 411, [name[:30]] followed by ['...'] for a longer name; the
    chart labels of line 718 are cut the same way. *)
Definition card_title (name : string) : string :=
  (substring 0 30 name ++ (if (30 <? String.length name)%nat then "..." else ""))%string.

End Directory.

(** ** app2.py: the Services page *)

Module ServicesPage.

(** [PRICING_SERVICE_MAP] (lines 75-84). *)
Definition PRICING_SERVICE_MAP : list (string * string) :=
  [ ("MRI", "MRI");
    ("CT", "CT Scan");
    ("Ultrasound", "Ultrasound");
    ("X-Ray", "X-Ray");
    ("Cardiology", "Cardiology");
    ("Physiotherapy", "Physiotherapy and sports health");
    ("Audiology", "Audiology");
    ("One Stop Breast Clinic", "Breast care services") ].

(** A row of [service_df]; "Pricing Available" is kept as the boolean
    [has_pricing] that chooses between its two texts. *)
Record ServiceRow : Type :=
  mkService { Service : string; Number_of_Clinicians : nat; Pricing_Available : bool }.

(** Lines 462-476. *)
Definition service_analysis (all_services services_offered : list string)
  : list ServiceRow :=
  map (fun service =>
         mkService service
                   (App2.doctor_count service services_offered)
                   (existsb (String.eqb service) (map snd PRICING_SERVICE_MAP)))
      all_services.

(** The select box. *)
Inductive ShowPricing : Type := AllServices | WithPricing | ContactForPricing.

(** Lines 493-503; [sort_values] stands for pandas'
    [sort_values('Number of Clinicians', ascending=False)], whose order
    among equal counts is not fixed. *)
Definition filtered_services
           (sort_values : list ServiceRow -> list ServiceRow)
           (show_pricing : ShowPricing) (min_doctors : nat)
           (service_df : list ServiceRow) : list ServiceRow :=
  let df := match show_pricing with
            | WithPricing => filter Pricing_Available service_df
            | ContactForPricing => filter (fun r => negb (Pricing_Available r)) service_df
            | AllServices => service_df
            end in
  sort_values (filter (fun r => (min_doctors <=? Number_of_Clinicians r)%nat) df).

(** The three metrics (lines 508-514). *)
Definition total_services (df : list ServiceRow) : nat := List.length df.
Definition with_pricing (df : list ServiceRow) : nat :=
  List.length (filter Pricing_Available df).
Definition total_assignments (df : list ServiceRow) : nat :=
  list_sum (map Number_of_Clinicians df).

(** A sort by decreasing count, by insertion. *)
Fixpoint insert_desc (r : ServiceRow) (l : list ServiceRow) : list ServiceRow :=
  match l with
  | [] => [r]
  | x :: l' => if (Number_of_Clinicians x <=? Number_of_Clinicians r)%nat
               then r :: l else x :: insert_desc r l'
  end.

Definition sort_desc (l : list ServiceRow) : list ServiceRow :=
  fold_right insert_desc [] l.

End ServicesPage.

(** ** app2.py: loading the price lists and choosing the tab's category *)

Module Loader.

(** What [pd.read_csv(filepath, encoding=encoding)] does. *)
Inductive ReadResult (F : Type) : Type :=
| Read (df : F)
| UnicodeDecodeError
| OtherError.
Arguments Read {F} df.
Arguments UnicodeDecodeError {F}.
Arguments OtherError {F}.

(** The outcome for one file: a frame with the encoding that read it, the
    report "Unable to decode file with any encoding", or another error
    caught by the outer [except]. *)
Inductive Loaded (F : Type) : Type :=
| Frame (encoding : string) (df : F)
| Undecodable
| Failed.
Arguments Frame {F} encoding df.
Arguments Undecodable {F}.
Arguments Failed {F}.

(** The loop of lines 590-595. *)
Fixpoint try_encodings {F : Type} (read_csv : string -> ReadResult F)
         (encodings : list string) : Loaded F :=
  match encodings with
  | [] => Undecodable
  | encoding :: rest =>
      match read_csv encoding with
      | Read df => Frame encoding df
      | UnicodeDecodeError => try_encodings read_csv rest
      | OtherError => Failed
      end
  end.

Definition encodings : list string := ["utf-8"; "latin-1"; "cp1252"; "iso-8859-1"].

Definition load_csv {F : Type} (read_csv : string -> ReadResult F) : Loaded F :=
  try_encodings read_csv encodings.

(** [csv_files] (lines 574-584), in insertion order. *)
Definition csv_files : list (string * string) :=
  [ ("Audiology", "prices/audiology.csv");
    ("One Stop Breast Clinic", "prices/breast_clinic.csv");
    ("Cardiology", "prices/cardiology.csv");
    ("CT", "prices/ct.csv");
    ("Minor Operations", "prices/minor_operations.csv");
    ("MRI", "prices/mri.csv");
    ("Physiotherapy", "prices/physiotherapy.csv");
    ("Ultrasound", "prices/ultrasound.csv");
    ("X-Ray", "prices/x-ray.csv") ].

(** [pricing_data]: the categories whose file gave a frame, in the order of
    [csv_files]; [load] is the body of the loop for one file. *)
Definition pricing_data {F : Type} (load : string -> option F)
           (files : list (string * string)) : list (string * F) :=
  flat_map (fun cf => match load (snd cf) with
                      | Some df => [(fst cf, df)]
                      | None => []
                      end)
           files.

(** [category_names[idx]] for the tab number [idx] (line 628); [None] is
    the IndexError. *)
Definition tab_category {F : Type} (load : string -> option F)
           (files : list (string * string)) (idx : nat) : option string :=
  nth_error (map fst (pricing_data load files)) idx.

End Loader.

(** * Properties *)

Example lower_ex : PyStr.lower "Cardiology Consultant" = "cardiology consultant".
Proof. reflexivity. Qed.

Example strip_ex : PyStr.strip "  a b  " = "a b".
Proof. reflexivity. Qed.

Example split_ex : PyStr.split "," "A, B,,C" = ["A"; " B"; ""; "C"].
Proof. reflexivity. Qed.

Example float_ex1 : PyStr.float "12.50" = Some (25 # 2)%Q.
Proof. reflexivity. Qed.

Example float_ex2 : PyStr.float "1.2.3" = None.
Proof. reflexivity. Qed.

Example float_ex3 : PyStr.float ".5" = Some (1 # 2)%Q.
Proof. reflexivity. Qed.

Example round1_ex : round1 (100 # 9)%Q = (111 # 10)%Q.
Proof. reflexivity. Qed.

Example round1_tie : round1 (1 # 4)%Q = (1 # 5)%Q.
Proof. reflexivity. Qed.

(** ** DepartmentClassifier *)

Section Classifier.

Import Analytics.

(** The chain of conditionals is the table-driven search of the
    specification. *)
Lemma categorize_is_first_match (spec : string) :
  categorize_specialization spec = Spec.classify spec.
Proof.
  unfold categorize_specialization, Spec.classify, Spec.rules.
  cbn [find fst snd].
  repeat match goal with
         | |- context [any_in ?ws ?s] => destruct (any_in ws s); [reflexivity|]
         end.
  reflexivity.
Qed.

Lemma classify_in_departments (spec : string) :
  In (Spec.classify spec) Spec.departments.
Proof.
  unfold Spec.classify.
  destruct (find _ Spec.rules) as [rule|] eqn:E.
  - apply find_some in E. destruct E as [E _].
    unfold Spec.departments. apply in_or_app. left.
    now apply in_map.
  - unfold Spec.departments. apply in_or_app. right. now left.
Qed.

(** C7: [categorize_specialization] is a function on every specialization
    string; its value is the department of the first rule of the ordered
    table with a keyword in the lower-cased input, "Other Specialties"
    when there is none; the value is always one of the thirteen distinct
    labels; a specialization holding a Cardiology keyword is Cardiology
    whatever later rules match, and so is "Cardiology Consultant". *)
Theorem C7_classifier_total_first_match :
  (forall spec, categorize_specialization spec = Spec.classify spec)
  /\ (forall spec, In (categorize_specialization spec) Spec.departments)
  /\ List.length Spec.departments = 13
  /\ NoDup Spec.departments
  /\ (forall spec, any_in ["cardio"; "heart"] (PyStr.lower spec) = true ->
                   categorize_specialization spec = "Cardiology")
  /\ categorize_specialization "Cardiology Consultant" = "Cardiology".
Proof.
  split; [exact categorize_is_first_match|].
  split; [intro; rewrite categorize_is_first_match; apply classify_in_departments|].
  split; [reflexivity|].
  split.
  - unfold Spec.departments, Spec.rules. cbn [map snd app].
    repeat (constructor; [cbn [In]; intuition discriminate|]).
    constructor.
  - split; [|reflexivity].
    intros spec H. unfold categorize_specialization. now rewrite H.
Qed.

Lemma C7_classifier_witness :
  any_in ["cardio"; "heart"] (PyStr.lower "Heart and ENT surgery") = true
  /\ categorize_specialization "Heart and ENT surgery" = "Cardiology".
Proof.
  split; [reflexivity|].
  apply (proj1 (proj2 (proj2 (proj2 (proj2 C7_classifier_total_first_match))))).
  reflexivity.
Defined.

(** C10: keywords are found by substring search, not on word boundaries:
    a specialization with no keyword of the first five rules whose
    lower-cased text contains "ent" anywhere is ENT; so are "dental" and
    "patient". *)
Theorem C10_ent_substring (spec : string) :
  any_in ["cardio"; "heart"] (PyStr.lower spec) = false ->
  any_in ["ortho"; "bone"; "joint"; "knee"; "hip"; "spine"] (PyStr.lower spec) = false ->
  any_in ["gastro"; "hepato"; "bowel"] (PyStr.lower spec) = false ->
  any_in ["breast"; "oncoplastic"] (PyStr.lower spec) = false ->
  any_in ["dermat"; "skin"] (PyStr.lower spec) = false ->
  PyStr.contains "ent" (PyStr.lower spec) = true ->
  categorize_specialization spec = "ENT".
Proof.
  intros H1 H2 H3 H4 H5 Hent.
  unfold categorize_specialization.
  rewrite H1, H2, H3, H4, H5.
  unfold any_in at 1. cbn [existsb]. now rewrite Hent.
Qed.

Lemma C10_ent_witness :
  categorize_specialization "dental" = "ENT"
  /\ categorize_specialization "Patient liaison" = "ENT".
Proof.
  split; apply C10_ent_substring; reflexivity.
Defined.

End Classifier.

(** ** The price-table walk of app.py *)

Section PriceTable.

Import App.

Variable search_price : string.

Lemma row_kind_header_iff (row : PriceRow) (name : string) :
  col0 row = Some name -> PyStr.strip name <> "" ->
  (row_kind row = CategoryHeader <-> col1 row = None /\ col2 row = None).
Proof.
  intros H0 Hname. unfold row_kind. rewrite H0.
  destruct (String.eqb_spec (PyStr.strip name) "") as [E|_]; [contradiction|].
  destruct (col1 row), (col2 row); cbn; split; intros H;
    try discriminate; try reflexivity; try (now split);
    destruct H; discriminate.
Qed.

(** What [show_row] does, by kind of row. *)
Lemma show_row_by_kind (cur : option string) (row : PriceRow) :
  match row_kind row with
  | Blank => show_row search_price cur row = (cur, [])
  | CategoryHeader =>
      exists name, col0 row = Some name
                   /\ show_row search_price cur row = (Some name, [CategoryHeading name])
  | ServiceData =>
      exists name, col0 row = Some name
                   /\ show_row search_price cur row =
                      (cur, if filtered_out search_price name then []
                            else [ServiceLine name (shown_price (col1 row))
                                                   (shown_price (col2 row))])
  end.
Proof.
  unfold row_kind, show_row.
  destruct (col0 row) as [name|]; [|reflexivity].
  destruct (String.eqb (PyStr.strip name) ""); [reflexivity|].
  destruct (isna (col1 row) && isna (col2 row)).
  - now exists name.
  - exists name. split; [reflexivity|].
    now destruct (filtered_out search_price name).
Qed.

(** C1: for a row whose service-name cell is not blank, the loop takes the
    category-header branch (it sets [current_category] to the name and
    writes a heading) exactly when both price cells are missing; with
    exactly one of them missing the row is a service row: it leaves
    [current_category] alone and writes no heading. *)
Theorem C1_header_iff_both_prices_empty
        (current_category : option string) (row : PriceRow) (name : string) :
  col0 row = Some name -> PyStr.strip name <> "" ->
  (row_kind row = CategoryHeader <-> col1 row = None /\ col2 row = None)
  /\ (show_row search_price current_category row
      = (Some name, [CategoryHeading name])
      <-> col1 row = None /\ col2 row = None)
  /\ ((col1 row = None /\ col2 row <> None) \/ (col1 row <> None /\ col2 row = None) ->
      row_kind row = ServiceData
      /\ fst (show_row search_price current_category row) = current_category
      /\ forall c, ~ In (CategoryHeading c)
                        (snd (show_row search_price current_category row))).
Proof.
  intros H0 Hname.
  pose proof (row_kind_header_iff row name H0 Hname) as Hk.
  pose proof (show_row_by_kind current_category row) as Hs.
  assert (Hnb : row_kind row <> Blank).
  { unfold row_kind. rewrite H0.
    destruct (String.eqb_spec (PyStr.strip name) ""); [contradiction|].
    now destruct (isna (col1 row) && isna (col2 row)). }
  split; [exact Hk|]. split.
  - destruct (row_kind row) eqn:K; [contradiction| |].
    + destruct Hs as (n & Hn & Hs). rewrite H0 in Hn. injection Hn as <-.
      rewrite Hs. split; intros _; [now apply Hk | reflexivity].
    + destruct Hs as (n & _ & Hs). rewrite Hs. split.
      * intros E. exfalso.
        destruct (filtered_out search_price n); discriminate.
      * intros E. apply Hk in E. discriminate.
  - intros Hone.
    assert (K : row_kind row = ServiceData).
    { destruct (row_kind row) eqn:K; [contradiction| |reflexivity].
      exfalso. destruct (proj1 Hk eq_refl) as [E1 E2].
      destruct Hone as [[_ N]|[N _]]; contradiction. }
    rewrite K in Hs. destruct Hs as (n & _ & Hs). rewrite Hs.
    split; [exact K|]. split; [reflexivity|].
    intros c. cbn [snd].
    destruct (filtered_out search_price n); cbn [In]; intuition discriminate.
Qed.

Lemma show_rows_app (st : option string * list Rendered) (a b : list PriceRow) :
  show_rows search_price st (a ++ b)
  = show_rows search_price (show_rows search_price st a) b.
Proof. unfold show_rows. apply fold_left_app. Qed.

(** The loop only appends to the page, and what it appends does not depend
    on the page so far. *)
Lemma show_rows_appends (rows : list PriceRow) :
  forall cur page,
    show_rows search_price (cur, page) rows
    = (fst (show_rows search_price (cur, []) rows),
       page ++ snd (show_rows search_price (cur, []) rows)).
Proof.
  induction rows as [|row rows IH]; intros cur page.
  - cbn. now rewrite app_nil_r.
  - cbn [show_rows fold_left fst snd] in *.
    destruct (show_row search_price cur row) as [cur' written].
    fold (show_rows search_price (cur', page ++ written) rows).
    fold (show_rows search_price (cur', [] ++ written) rows).
    rewrite (IH cur' (page ++ written)), (IH cur' ([] ++ written)).
    cbn [fst snd app]. now rewrite app_assoc.
Qed.

Lemma last_header_unfold (rows : list PriceRow) :
  last_header rows = fold_left header_step rows None.
Proof. reflexivity. Qed.

(** [current_category] is the name of the last header row passed. *)
Lemma current_category_after (rows : list PriceRow) :
  forall cur page,
    fst (show_rows search_price (cur, page) rows) = fold_left header_step rows cur.
Proof.
  induction rows as [|row rows IH]; intros cur page; [reflexivity|].
  cbn [show_rows fold_left fst snd].
  destruct (show_row search_price cur row) as [cur' written] eqn:E.
  fold (show_rows search_price (cur', page ++ written) rows).
  rewrite IH. f_equal. unfold header_step.
  pose proof (show_row_by_kind cur row) as Hs. rewrite E in Hs.
  destruct (row_kind row).
  - now injection Hs as <- _.
  - destruct Hs as (n & Hn & Hs). rewrite Hn. now injection Hs as <- _.
  - destruct Hs as (n & _ & Hs). now injection Hs as <- _.
Qed.

(** The last heading on the page is [current_category] throughout. *)
Lemma heading_follows_category (rows : list PriceRow) :
  forall cur page,
    fold_left heading_step page None = cur ->
    let st := show_rows search_price (cur, page) rows in
    fold_left heading_step (snd st) None = fst st.
Proof.
  induction rows as [|row rows IH]; intros cur page Hinv; [exact Hinv|].
  cbn [show_rows fold_left fst snd].
  destruct (show_row search_price cur row) as [cur' written] eqn:E.
  fold (show_rows search_price (cur', page ++ written) rows).
  apply IH. rewrite fold_left_app, Hinv.
  pose proof (show_row_by_kind cur row) as Hs. rewrite E in Hs.
  destruct (row_kind row).
  - injection Hs as E1 E2. now subst.
  - destruct Hs as (n & _ & Hs). injection Hs as E1 E2. now subst.
  - destruct Hs as (n & _ & Hs). injection Hs as E1 E2. subst.
    now destruct (filtered_out search_price n).
Qed.

Lemma last_header_found (pre1 pre2 : list PriceRow) (header : PriceRow) :
  row_kind header = CategoryHeader ->
  (forall r, In r pre2 -> row_kind r <> CategoryHeader) ->
  last_header (pre1 ++ header :: pre2) = col0 header.
Proof.
  intros Hh Hpre2. rewrite last_header_unfold, fold_left_app.
  cbn [fold_left]. unfold header_step at 2. rewrite Hh.
  generalize (col0 header) as h.
  induction pre2 as [|r pre2 IH]; intros h; [reflexivity|].
  cbn [fold_left]. unfold header_step at 2.
  destruct (row_kind r) eqn:K.
  - apply IH. intros r' Hr'. apply Hpre2. now right.
  - exfalso. now apply (Hpre2 r (or_introl eq_refl)).
  - apply IH. intros r' Hr'. apply Hpre2. now right.
Qed.

Lemma no_header_keeps (rows : list PriceRow) :
  (forall r, In r rows -> row_kind r <> CategoryHeader) ->
  forall h, fold_left header_step rows h = h.
Proof.
  induction rows as [|r rows IH]; intros H h; [reflexivity|].
  cbn [fold_left]. unfold header_step at 2.
  destruct (row_kind r) eqn:K.
  - apply IH. intros r' Hr'. apply H. now right.
  - exfalso. now apply (H r (or_introl eq_refl)).
  - apply IH. intros r' Hr'. apply H. now right.
Qed.

(** C9 (as amended): when the loop reaches a service row, [current_category]
    and the last heading on the page are both the name of the most recent
    category-header row above it, if there is one, and both are missing if
    there is none; what the row writes (at most one service line) goes on
    the page right there, so the entry sits under that heading, or under
    no heading, and under no other.  A category-header row writes its
    heading and no service line, whatever the state. *)
Theorem C9_entry_under_latest_header
        (above post : list PriceRow) (row : PriceRow) :
  row_kind row = ServiceData ->
  let before := pricing_page search_price above in
  fst before = last_header above
  /\ heading_above (snd before) = last_header above
  /\ (exists name,
         col0 row = Some name
         /\ show_row search_price (last_header above) row
            = (last_header above,
               if filtered_out search_price name then []
               else [ServiceLine name (shown_price (col1 row))
                                      (shown_price (col2 row))]))
  /\ (exists after,
         snd (pricing_page search_price (above ++ row :: post))
         = snd before ++ snd (show_row search_price (last_header above) row)
                      ++ after)
  /\ (forall pre1 header pre2 category,
         above = pre1 ++ header :: pre2 ->
         row_kind header = CategoryHeader -> col0 header = Some category ->
         (forall r, In r pre2 -> row_kind r <> CategoryHeader) ->
         last_header above = Some category)
  /\ ((forall r, In r above -> row_kind r <> CategoryHeader) ->
      last_header above = None)
  /\ (forall cur r, row_kind r = CategoryHeader ->
                    exists name, col0 r = Some name
                                 /\ show_row search_price cur r
                                    = (Some name, [CategoryHeading name])).
Proof.
  intros Hrow before.
  assert (Hcat : fst before = last_header above).
  { unfold before, pricing_page. now rewrite current_category_after. }
  split; [exact Hcat|]. split.
  { rewrite <- Hcat. unfold heading_above, before, pricing_page.
    now apply (heading_follows_category above None []). }
  split.
  { pose proof (show_row_by_kind (last_header above) row) as Hs.
    now rewrite Hrow in Hs. }
  split.
  { unfold pricing_page. rewrite show_rows_app.
    fold (pricing_page search_price above). fold before.
    destruct before as [cur page] eqn:Eb. cbn [fst snd] in *. subst cur.
    cbn [show_rows fold_left fst snd].
    destruct (show_row search_price (last_header above) row) as [cur' written].
    fold (show_rows search_price (cur', page ++ written) post).
    rewrite show_rows_appends. cbn [snd].
    eexists. now rewrite app_assoc. }
  split.
  { intros pre1 header pre2 category -> Hh Hc Hpre2.
    now rewrite last_header_found. }
  split.
  { intros H. rewrite last_header_unfold. now apply no_header_keeps. }
  intros cur r Hr.
  pose proof (show_row_by_kind cur r) as Hs. now rewrite Hr in Hs.
Qed.

End PriceTable.

Lemma C1_header_witness :
  App.row_kind (App.mkRow (Some "Head MRI") (Some Samples.p500) None) = App.ServiceData.
Proof.
  refine (proj1 (proj2 (proj2 (C1_header_iff_both_prices_empty
                                 "" None
                                 (App.mkRow (Some "Head MRI") (Some Samples.p500) None)
                                 "Head MRI" eq_refl _)) _)).
  - vm_compute. discriminate.
  - right. split; [discriminate | reflexivity].
Defined.

Lemma C9_entry_witness :
  App.last_header [App.mkRow (Some "MRI") None None] = Some "MRI"
  /\ App.last_header [Samples.head_mri] = None.
Proof.
  split.
  - refine (proj1 (proj2 (proj2 (proj2 (proj2
              (C9_entry_under_latest_header
                 "" [App.mkRow (Some "MRI") None None] [] Samples.head_mri
                 eq_refl)))))
              [] (App.mkRow (Some "MRI") None None) [] "MRI"
              eq_refl eq_refl eq_refl _).
    intros r [].
  - refine (proj1 (proj2 (proj2 (proj2 (proj2 (proj2
              (C9_entry_under_latest_header
                 "" [Samples.head_mri] [] Samples.head_mri eq_refl))))))
              _).
    intros r [<-|[]]. vm_compute. discriminate.
Defined.

(** C9 (counterexample): a service row above every category header is
    written while [current_category] is still [None] and no heading is on
    the page: the entry belongs to no category. *)
Lemma C9_orphan_entry_counterexample :
  ~ (forall above row,
        App.row_kind row = App.ServiceData ->
        exists header category,
          In header above
          /\ App.row_kind header = App.CategoryHeader
          /\ fst (App.pricing_page "" above) = Some category)
  /\ App.pricing_page "" [Samples.head_mri]
     = (None, [App.ServiceLine "Head MRI" Samples.p500 Samples.from_p450])
  /\ App.heading_above (snd (App.pricing_page "" [])) = None.
Proof.
  split; [|split; reflexivity].
  intros H. destruct (H [] Samples.head_mri eq_refl) as (header & _ & [] & _).
Qed.

(** ** Facts about the string primitives *)

Section StringFacts.

Import PyStr.

Lemma all_chars_weaken (p q : ascii -> bool) (s : string) :
  (forall c, p c = true -> q c = true) ->
  all_chars p s = true -> all_chars q s = true.
Proof.
  intros Hpq. induction s as [|c s IH]; [reflexivity|].
  cbn. intros H. apply andb_true_iff in H. destruct H as [Hc Hs].
  apply andb_true_iff. split; [now apply Hpq | now apply IH].
Qed.

(** A string found inside [s] puts its first character in [s]. *)
Lemma contains_first_char (p : ascii -> bool) (c : ascii) (sub s : string) :
  p c = false -> contains (String c sub) s = true -> all_chars p s = false.
Proof.
  intros Hc. induction s as [|d s IH]; [discriminate|].
  cbn [contains prefix all_chars]. intros H.
  apply orb_true_iff in H. destruct H as [H|H].
  - destruct (ascii_dec c d) as [<-|N].
    + now rewrite Hc.
    + discriminate.
  - rewrite (IH H). apply andb_false_r.
Qed.

Lemma all_chars_remove_char (p : ascii -> bool) (c : ascii) (s : string) :
  all_chars p (remove_char c s) = true ->
  all_chars (fun d => p d || Ascii.eqb d c) s = true.
Proof.
  induction s as [|d s IH]; [reflexivity|].
  cbn [remove_char all_chars].
  destruct (Ascii.eqb d c) eqn:E.
  - intros H. rewrite (IH H). now rewrite orb_true_r.
  - cbn [all_chars]. intros H. apply andb_true_iff in H. destruct H as [Hd Hs].
    now rewrite Hd, (IH Hs).
Qed.

Lemma remove_char_all (c : ascii) (s : string) :
  all_chars (fun d => Ascii.eqb d c) s = true -> remove_char c s = "".
Proof.
  induction s as [|d s IH]; [reflexivity|].
  cbn [remove_char all_chars]. intros H.
  apply andb_true_iff in H. destruct H as [Hd Hs].
  rewrite Hd. now apply IH.
Qed.

Lemma isdigit_all_chars (s : string) :
  s <> "" -> isdigit s = all_chars isdigit_char s.
Proof. destruct s; [contradiction | reflexivity]. Qed.

Lemma ascii_digit_isdigit (c : ascii) :
  is_ascii_digit c = true -> isdigit_char c = true.
Proof. unfold isdigit_char. now intros ->. Qed.

(** A character that lower-cases to "f" is a letter: neither a digit nor
    the dot. *)
Lemma lower_f_not_numeric (c : ascii) :
  lower_char c = "f"%char -> isdigit_char c = false /\ Ascii.eqb c "." = false.
Proof.
  destruct c as [[] [] [] [] [] [] [] []]; vm_compute; intros H;
    solve [discriminate H | now split].
Qed.

(** Text that starts with "from" in any letter case fails the digit test. *)
Lemma from_prefix_not_digits (s : string) :
  prefix "from" (lower s) = true -> isdigit (remove_char "." s) = false.
Proof.
  destruct s as [|c s]; [discriminate|].
  cbn [lower prefix].
  destruct (ascii_dec "f" (lower_char c)) as [E|N]; [|discriminate].
  intros _. symmetry in E. apply lower_f_not_numeric in E.
  destruct E as [Hd Hdot].
  cbn [remove_char]. rewrite Hdot. cbn [isdigit all_chars]. now rewrite Hd.
Qed.

End StringFacts.

(** ** The price cells of app2.py *)

Section PriceCells.

Import App2.

(** The three outcomes of a cell, in terms of the guard and [float]. *)
Lemma parse_price_cases (price : Cell) :
  parse_price price
  = if is_price (clean price)
    then match PyStr.float (clean price) with
         | Some x => Amount x
         | None => ValueError
         end
    else NoAmount.
Proof.
  unfold parse_price, add_price, to_float.
  destruct (is_price (clean price)); [|reflexivity].
  now destruct (PyStr.float (clean price)).
Qed.

Lemma add_price_cases (prices : list Q) (price : Cell) :
  add_price prices price
  = match parse_price price with
    | Amount x => Ok (prices ++ [x])
    | NoAmount => Ok prices
    | ValueError => Raise
    end.
Proof.
  rewrite parse_price_cases. unfold add_price, to_float.
  destruct (is_price (clean price)); [|reflexivity].
  now destruct (PyStr.float (clean price)).
Qed.

Lemma not_price_no_amount (price : Cell) :
  is_price (clean price) = false -> parse_price price = NoAmount.
Proof. intros H. now rewrite parse_price_cases, H. Qed.

Lemma from_is_not_price (s : string) :
  PyStr.contains "From" s = true -> is_price s = false.
Proof.
  intros H. unfold is_price. rewrite H. cbn [negb].
  now rewrite andb_false_r.
Qed.

Lemma not_digits_is_not_price (s : string) :
  PyStr.isdigit (PyStr.remove_char "." s) = false -> is_price s = false.
Proof. intros H. unfold is_price. rewrite H. apply andb_false_r. Qed.

(** Plain decimal text passes the guard and converts. *)
Lemma decimal_is_price (s : string) :
  PyStr.remove_char "." s <> "" ->
  PyStr.all_chars PyStr.is_ascii_digit (PyStr.remove_char "." s) = true ->
  PyStr.count_char "." s <= 1 ->
  is_price s = true
  /\ PyStr.float s
     = Some (Qred (Z.of_N (PyStr.digits_value 0 (PyStr.remove_char "." s))
                   # Pos.of_nat (10 ^ PyStr.frac_len s))).
Proof.
  intros Hne Hdig Hdots.
  pose proof (all_chars_remove_char _ _ _ Hdig) as Hnum.
  assert (Hdot : PyStr.all_chars (fun c => Ascii.eqb c ".") s = false).
  { destruct (PyStr.all_chars (fun c => Ascii.eqb c ".") s) eqn:E; [|reflexivity].
    now apply remove_char_all in E. }
  split.
  - unfold is_price.
    assert (Hs : String.eqb s "" = false).
    { destruct s; [now contradiction Hne | reflexivity]. }
    rewrite Hs. cbn [negb andb].
    assert (Hfrom : PyStr.contains "From" s = false).
    { destruct (PyStr.contains "From" s) eqn:E; [|reflexivity].
      apply (contains_first_char
               (fun c => PyStr.is_ascii_digit c || Ascii.eqb c ".")) in E;
        [congruence | reflexivity]. }
    rewrite Hfrom. cbn [negb andb].
    rewrite isdigit_all_chars by exact Hne.
    apply (all_chars_weaken PyStr.is_ascii_digit); [|exact Hdig].
    exact ascii_digit_isdigit.
  - unfold PyStr.float. rewrite Hnum, Hdot.
    apply Nat.leb_le in Hdots. now rewrite Hdots.
Qed.

(** C2 (as amended): on the text of a cell with every pound sign and comma
    deleted and the outer whitespace trimmed, the price check of app2.py
    gives no amount when the text contains "From" or starts with "from"
    in any letter case (no From amount is ever extracted); gives no amount
    when the text without its dots is empty or holds a non-digit; and
    gives the exact decimal value when the text is ASCII digits with at
    most one decimal point. *)
Theorem C2_price_cell_outcomes (price : Cell) :
  let price_str := clean price in
  (PyStr.contains "From" price_str = true -> parse_price price = NoAmount)
  /\ (prefix "from" (PyStr.lower price_str) = true -> parse_price price = NoAmount)
  /\ (PyStr.isdigit (PyStr.remove_char "." price_str) = false ->
      parse_price price = NoAmount)
  /\ (PyStr.remove_char "." price_str <> "" ->
      PyStr.all_chars PyStr.is_ascii_digit (PyStr.remove_char "." price_str) = true ->
      PyStr.count_char "." price_str <= 1 ->
      parse_price price
      = Amount (Qred (Z.of_N (PyStr.digits_value 0 (PyStr.remove_char "." price_str))
                      # Pos.of_nat (10 ^ PyStr.frac_len price_str)))).
Proof.
  intros price_str. repeat split.
  - intros H. apply not_price_no_amount. now apply from_is_not_price.
  - intros H. apply not_price_no_amount, not_digits_is_not_price.
    now apply from_prefix_not_digits.
  - intros H. apply not_price_no_amount. now apply not_digits_is_not_price.
  - intros Hne Hdig Hdots.
    destruct (decimal_is_price price_str Hne Hdig Hdots) as [Hp Hf].
    rewrite parse_price_cases. fold price_str. now rewrite Hp, Hf.
Qed.

End PriceCells.

Lemma C2_price_cell_witness :
  App2.parse_price (Some Samples.from_p450) = App2.NoAmount
  /\ App2.parse_price (Some "FROM 450") = App2.NoAmount
  /\ App2.parse_price (Some "n/a") = App2.NoAmount
  /\ App2.parse_price (Some (String pound "1,250.50")) = App2.Amount (2501 # 2)%Q.
Proof.
  split; [|split; [|split]].
  - apply (proj1 (C2_price_cell_outcomes (Some Samples.from_p450))). reflexivity.
  - apply (proj1 (proj2 (C2_price_cell_outcomes (Some "FROM 450")))). reflexivity.
  - apply (proj1 (proj2 (proj2 (C2_price_cell_outcomes (Some "n/a"))))). reflexivity.
  - refine (proj2 (proj2 (proj2 (C2_price_cell_outcomes
                                   (Some (String pound "1,250.50"))))) _ _ _).
    + vm_compute. discriminate.
    + reflexivity.
    + vm_compute. lia.
Defined.

(** C2 (counterexample): for the cell "From 450 pounds" the specification's
    parse returns From with amount 450, while the price check of app2.py
    yields no amount for it. *)
Lemma C2_from_amount_counterexample :
  Spec.parse Samples.from_p450 = Spec.From 450%Q
  /\ App2.parse_price (Some Samples.from_p450) = App2.NoAmount
  /\ ~ Spec.returns (App2.parse_price (Some Samples.from_p450))
                    (Spec.parse Samples.from_p450).
Proof.
  split; [reflexivity|]. split; [reflexivity|].
  vm_compute. exact (fun H => H).
Qed.

(** ** Averages and price differences of app2.py *)

Section PriceStatistics.

Import App2.

(** One step of the difference loop. *)
Lemma add_diff_cases (acc : list PriceDiff) (row : PriceRow) :
  add_diff acc row
  = match parse_price (Canary_Wharf row), parse_price (Orpington row) with
    | NoAmount, _ | _, NoAmount => Ok acc
    | Amount _, Amount _ => Ok (acc ++ Spec.diff_entry row)
    | _, _ => Raise
    end.
Proof.
  unfold Spec.diff_entry. rewrite !parse_price_cases.
  unfold add_diff, to_float.
  destruct (is_price (clean (Canary_Wharf row)));
    destruct (is_price (clean (Orpington row))); cbn [andb];
    destruct (PyStr.float (clean (Canary_Wharf row)));
    destruct (PyStr.float (clean (Orpington row))); reflexivity.
Qed.

Lemma diff_entry_nil_unless_exact (row : PriceRow) :
  (forall c o, ~ (parse_price (Canary_Wharf row) = Amount c
                  /\ parse_price (Orpington row) = Amount o)) ->
  Spec.diff_entry row = [].
Proof.
  intros H. unfold Spec.diff_entry.
  destruct (parse_price (Canary_Wharf row)) eqn:Ec; try reflexivity.
  destruct (parse_price (Orpington row)) eqn:Eo; try reflexivity.
  exfalso. now apply (H x x0).
Qed.

Lemma diffs_inv (rows : list PriceRow) :
  forall acc result,
    for_each add_diff rows acc = Ok result ->
    result = acc ++ flat_map Spec.diff_entry rows.
Proof.
  induction rows as [|row rows IH]; intros acc result H.
  - cbn in H. injection H as <-. cbn. now rewrite app_nil_r.
  - cbn [for_each bind] in H. rewrite add_diff_cases in H. cbn [flat_map].
    destruct (parse_price (Canary_Wharf row)) eqn:Ec;
      destruct (parse_price (Orpington row)) eqn:Eo;
      cbn [bind] in H; try discriminate H;
      apply IH in H; subst result;
      try (rewrite diff_entry_nil_unless_exact;
           [reflexivity | intros c o [E1 E2]; congruence]).
    now rewrite <- app_assoc.
Qed.

(** C3: the column [500 pounds, From 450 pounds, 1.2.3, 450 pounds] has the
    Exact amounts 500 and 450 (the From cell and the malformed cell have
    none), whose mean is 475; but the cell "1.2.3" passes the digit test and
    makes [float] raise, so the page shows "Varies" instead of 475, which
    it shows once that cell is taken out.  In the same way a row with such
    a cell loses the price difference of every other row. *)
Theorem C3_raising_cell_hides_the_average :
  let column := [Some Samples.p500; Some Samples.from_p450;
                 Some "1.2.3"; Some Samples.p450] in
  Spec.qualified_exact column = [500%Q; 450%Q]
  /\ Spec.mean (Spec.qualified_exact column) = 475%Q
  /\ parse_price (Some "1.2.3") = ValueError
  /\ avg_price column = Varies
  /\ avg_price [Some Samples.p500; Some Samples.from_p450; Some Samples.p450]
     = Average 475%Q
  /\ price_diff_data [mkRow "Head MRI" (Some Samples.p500) (Some Samples.p450);
                      mkRow "Spine MRI" (Some "1.2.3") (Some Samples.p450)]
     = Raise
  /\ price_diff_data [mkRow "Head MRI" (Some Samples.p500) (Some Samples.p450)]
     = Ok [mkDiff "Head MRI" 500%Q 450%Q 50%Q (111 # 10)%Q].
Proof. repeat split; reflexivity. Qed.

(** C8: the cell "1.2.3" passes the digit test, because the test deletes
    every dot, and then [float] raises; the [except] clause turns the whole
    column into "Varies" although it holds the exact price 500, which
    alone averages to 500.  The specification's parse makes the cell
    Unavailable. *)
Theorem C8_malformed_numeric_raises :
  is_price (clean (Some "1.2.3")) = true
  /\ parse_price (Some "1.2.3") = ValueError
  /\ Spec.parse "1.2.3" = Spec.Unavailable
  /\ avg_price [Some Samples.p500; Some "1.2.3"] = Varies
  /\ avg_price [Some Samples.p500] = Average 500%Q
  /\ price_diff_data [mkRow "Head MRI" (Some "1.2.3") (Some Samples.p450)] = Raise.
Proof. repeat split; reflexivity. Qed.

End PriceStatistics.

(** ** The sample price table, end to end *)

(** C4 (as amended): the table [("MRI", -, -), ("Head MRI", 500 pounds,
    From 450 pounds)] is shown as one service line under the heading "MRI";
    its Canary Wharf cell is the exact price 500 and its Orpington cell, a
    From price, yields no amount, so no price difference is computed for the
    entry.  With the exact Orpington price 450 pounds the difference is 50
    and the percentage 11.1. *)
Theorem C4_mri_table_end_to_end :
  App.pricing_page "" Samples.mri_table
  = (Some "MRI",
     [App.CategoryHeading "MRI";
      App.ServiceLine "Head MRI" Samples.p500 Samples.from_p450])
  /\ App2.parse_price (Some Samples.p500) = App2.Amount 500%Q
  /\ App2.parse_price (Some Samples.from_p450) = App2.NoAmount
  /\ App2.price_diff_data Samples.mri_frame = Ok []
  /\ App2.price_diff_data Samples.mri_frame_exact
     = Ok [App2.mkDiff "Head MRI" 500%Q 450%Q 50%Q (111 # 10)%Q].
Proof. repeat split; reflexivity. Qed.

(** C4 (counterexample): on that table [price_diff_data] is empty, so no
    entry carries the difference 50 and the percentage 11.1. *)
Lemma C4_no_difference_counterexample :
  ~ (exists diffs d,
        App2.price_diff_data Samples.mri_frame = Ok diffs
        /\ In d diffs
        /\ App2.difference d = 50%Q
        /\ App2.difference_pct d = (111 # 10)%Q).
Proof.
  intros (diffs & d & H & Hd & _).
  assert (E : App2.price_diff_data Samples.mri_frame = Ok []) by reflexivity.
  rewrite E in H. injection H as <-. destruct Hd.
Qed.

(** ** Substring search *)

Section Substrings.

Import PyStr.

Lemma prefix_iff (a s : string) :
  prefix a s = true <-> exists r, s = (a ++ r)%string.
Proof.
  revert s. induction a as [|c a IH]; intros s.
  - cbn. split; [intros _; now exists s | now destruct s].
  - destruct s as [|d s]; cbn [prefix].
    + split; [discriminate | intros [r H]; discriminate H].
    + destruct (ascii_dec c d) as [<-|N].
      * rewrite IH. split; intros [r H]; exists r.
        -- cbn. now rewrite H.
        -- cbn in H. now injection H.
      * split; [discriminate|]. intros [r H]. cbn in H.
        injection H as E _. now contradiction N.
Qed.

Lemma string_app_assoc (a b c : string) :
  ((a ++ b) ++ c = a ++ (b ++ c))%string.
Proof. induction a as [|x a IH]; [reflexivity|]. cbn. now rewrite IH. Qed.

(** [sub in s] holds exactly when [s] is [sub] with text around it. *)
Lemma contains_iff (sub s : string) :
  contains sub s = true <-> exists a b, s = (a ++ sub ++ b)%string.
Proof.
  induction s as [|d s IH].
  - cbn [contains]. rewrite orb_false_r, prefix_iff. split.
    + intros [r H]. now exists "", r.
    + intros (a & b & H). destruct a; [now exists b | discriminate].
  - cbn [contains]. rewrite orb_true_iff, prefix_iff, IH. split.
    + intros [[r H]|(a & b & H)].
      * now exists "", r.
      * exists (String d a), b. cbn. now rewrite H.
    + intros (a & b & H). destruct a as [|x a].
      * left. now exists b.
      * right. cbn in H. injection H as _ H. now exists a, b.
Qed.

Lemma contains_trans (x y t : string) :
  contains x y = true -> contains y t = true -> contains x t = true.
Proof.
  rewrite !contains_iff. intros (a & b & ->) (a' & b' & ->).
  exists (a' ++ a)%string, (b ++ b')%string.
  now rewrite !string_app_assoc.
Qed.

Lemma contains_refl (s : string) : contains s s = true.
Proof.
  apply contains_iff. exists "", "". cbn.
  induction s as [|c s IH]; [reflexivity|]. cbn. now rewrite <- IH.
Qed.

End Substrings.

(** ** Clinicians per service *)

Section ServiceCounts.

Lemma counting_loop {A : Type} (p : A -> bool) (l : list A) :
  forall k,
    fold_left (fun n a => if p a then n + 1 else n) l k
    = k + List.length (filter p l).
Proof.
  induction l as [|a l IH]; intros k; cbn [fold_left filter].
  - cbn. lia.
  - rewrite IH. destruct (p a); cbn [List.length]; lia.
Qed.

Lemma doctor_count2_filter (service : string) (services_offered : list string) :
  App2.doctor_count service services_offered
  = List.length (filter (PyStr.contains service) (App2.mapped_df services_offered)).
Proof. unfold App2.doctor_count. now rewrite counting_loop. Qed.

Lemma filter_length_le {A : Type} (p q : A -> bool) (l : list A) :
  (forall a, p a = true -> q a = true) ->
  List.length (filter p l) <= List.length (filter q l).
Proof.
  intros Hpq. induction l as [|a l IH]; [reflexivity|].
  cbn [filter]. destruct (p a) eqn:Ep.
  - rewrite (Hpq a Ep). cbn [List.length]. lia.
  - destruct (q a); cbn [List.length]; lia.
Qed.

Lemma doctor_count1_filter (service : string) (services_offered : list string) :
  existsb App.regex_meta (list_ascii_of_string service) = false ->
  App.doctor_count service (map Some services_offered)
  = Some (Spec.clinician_count service services_offered).
Proof.
  intros Hlit. unfold App.doctor_count, Spec.clinician_count. rewrite Hlit.
  f_equal. induction services_offered as [|t l IH]; [reflexivity|].
  cbn [map filter]. unfold App.str_contains_nocase at 1. rewrite Hlit.
  fold (Spec.contains_nocase service t).
  destruct (Spec.contains_nocase service t); cbn [List.length]; now rewrite IH.
Qed.

(** C5: the count of app2.py is the number of mapped clinicians whose raw
    "Services Offered" text contains the service as a substring, so a
    service whose name lies inside a longer name is counted for clinicians
    offering the longer one; but the search is case-sensitive: for the
    service "mri" and the text "MRI, CT Scan" it counts 0, where the
    case-insensitive search (and app.py, which passes [case=False]) counts
    1. *)
Theorem C5_service_count_by_substring :
  (forall service services_offered,
      App2.doctor_count service services_offered
      = List.length (filter (PyStr.contains service)
                            (App2.mapped_df services_offered)))
  /\ (forall service longer services_offered,
         PyStr.contains service longer = true ->
         App2.doctor_count longer services_offered
         <= App2.doctor_count service services_offered)
  /\ (forall service services_offered,
         existsb App.regex_meta (list_ascii_of_string service) = false ->
         App.doctor_count service (map Some services_offered)
         = Some (Spec.clinician_count service services_offered))
  /\ App2.doctor_count "CT" ["CT Scan"] = 1
  /\ Spec.clinician_count "mri" ["MRI, CT Scan"] = 1
  /\ App.doctor_count "mri" [Some "MRI, CT Scan"] = Some 1
  /\ App2.doctor_count "mri" ["MRI, CT Scan"] = 0.
Proof.
  split; [exact doctor_count2_filter|].
  split; [|split; [exact doctor_count1_filter | repeat split; reflexivity]].
  intros service longer l Hsub. rewrite !doctor_count2_filter.
  apply filter_length_le. intros t Ht.
  now apply (contains_trans service longer t).
Qed.

End ServiceCounts.

Lemma C5_service_count_witness :
  App2.doctor_count "CT Scan" ["CT Scan, MRI"; "No Match"; "CT"]
  <= App2.doctor_count "CT" ["CT Scan, MRI"; "No Match"; "CT"]
  /\ App.doctor_count "ct scan" (map Some ["CT Scan, MRI"; "No Match"]) = Some 1.
Proof.
  split.
  - apply (proj1 (proj2 C5_service_count_by_substring)). reflexivity.
  - apply (proj1 (proj2 (proj2 C5_service_count_by_substring))). reflexivity.
Defined.

(** ** Service coverage *)

Section CoverageTable.

Import Analytics.

Lemma service_list_from (services_offered : list string) :
  forall acc,
    fold_left (fun service_list row =>
                 if negb (String.eqb row "No Match")
                 then service_list ++ tokens row
                 else service_list)
              services_offered acc
    = acc ++ flat_map tokens (App2.mapped_df services_offered).
Proof.
  induction services_offered as [|row l IH]; intros acc; cbn [fold_left].
  - cbn. now rewrite app_nil_r.
  - rewrite IH. unfold App2.mapped_df. cbn [filter].
    destruct (negb (String.eqb row "No Match")); [|reflexivity].
    cbn [flat_map]. now rewrite app_assoc.
Qed.

(** The token list is the concatenation of the mapped clinicians' tokens. *)
Lemma service_list_flat (services_offered : list string) :
  service_list services_offered = flat_map tokens (App2.mapped_df services_offered).
Proof. unfold service_list. now rewrite service_list_from. Qed.

Lemma count_app (x : string) (a b : list string) :
  count x (a ++ b) = count x a + count x b.
Proof. induction a as [|y a IH]; [reflexivity|]. cbn. rewrite IH. lia. Qed.

Lemma count_zero_iff (x : string) (l : list string) :
  count x l = 0 <-> ~ In x l.
Proof.
  induction l as [|y l IH]; cbn [count In]; [tauto|].
  destruct (String.eqb_spec y x) as [->|N].
  - split; [discriminate | intros H; exfalso; apply H; now left].
  - cbn [Nat.add]. rewrite IH. tauto.
Qed.

(** In a list without repetition a value occurs once or not at all. *)
Lemma count_nodup (x : string) (l : list string) :
  NoDup l -> count x l = if existsb (String.eqb x) l then 1 else 0.
Proof.
  induction 1 as [|y l Hy Hl IH]; [reflexivity|].
  cbn [count existsb]. rewrite IH, (String.eqb_sym x y).
  destruct (String.eqb_spec y x) as [->|N]; [|reflexivity].
  cbn [orb]. destruct (existsb (String.eqb x) l) eqn:E; [|reflexivity].
  exfalso. apply Hy. apply existsb_exists in E. destruct E as (z & Hz & E).
  apply String.eqb_eq in E. now subst z.
Qed.

(** Occurrences in the token list, clinician by clinician. *)
Lemma count_flat_map (x : string) (rows : list string) :
  count x (flat_map tokens rows)
  = fold_right (fun row n => count x (tokens row) + n) 0 rows.
Proof.
  induction rows as [|row rows IH]; [reflexivity|].
  cbn [flat_map fold_right]. now rewrite count_app, IH.
Qed.

Lemma count_clinicians (x : string) (rows : list string) :
  (forall row, In row rows -> NoDup (tokens row)) ->
  count x (flat_map tokens rows)
  = List.length (filter (fun row => existsb (String.eqb x) (tokens row)) rows).
Proof.
  intros Hnd. rewrite count_flat_map.
  induction rows as [|row rows IH]; [reflexivity|].
  cbn [fold_right filter].
  rewrite IH by (intros r Hr; apply Hnd; now right).
  rewrite (count_nodup x (tokens row)) by (apply Hnd; now left).
  now destruct (existsb (String.eqb x) (tokens row)).
Qed.

Lemma in_distinct (x : string) (l : list string) :
  In x (distinct l) <-> In x l.
Proof.
  induction l as [|y l IH]; cbn [distinct In]; [tauto|].
  rewrite filter_In, IH.
  destruct (String.eqb_spec x y) as [->|N].
  - split; [tauto | now left].
  - split.
    + intros [E|[H _]]; [now left | now right].
    + intros [E|H]; [now left|]. right. split; [exact H|].
      now destruct (String.eqb_spec x y).
Qed.






End CoverageTable.

(** 23 clinicians of 80: the float64 product is 28.749999999999996, which
    rounds to 28.7. *)
Example percent_23_of_80 : Np.percent 23 80 = Np.tenths 287.
Proof. reflexivity. Qed.

(** The empty token of a text with two commas in a row has a row of its
    own, although no membership contains it. *)
Example empty_token_has_a_row :
  option_map Analytics.cov_clinicians
    (Analytics.coverage_of "" (Analytics.service_coverage ["A,,B"] 1)) = Some 1
  /\ Spec.offers "" "A,,B" = false.
Proof. split; reflexivity. Qed.



(** * Further properties of the pages *)

(** ** app.py: what the pricing page shows *)

Section PricingPageShape.

Import App PageShape.

Variable search_price : string.

(** What a row writes does not depend on [current_category]. *)
Lemma written_any_category (cur cur' : option string) (row : PriceRow) :
  snd (show_row search_price cur row) = snd (show_row search_price cur' row).
Proof.
  unfold show_row. destruct (col0 row) as [name|]; [|reflexivity].
  destruct (String.eqb (PyStr.strip name) ""); [reflexivity|].
  destruct (isna (col1 row) && isna (col2 row)); [reflexivity|].
  now destruct (filtered_out search_price name).
Qed.

(** The page is the rows' lines one after the other, in table order. *)
Lemma page_in_table_order (rows : list PriceRow) :
  forall cur page,
    snd (show_rows search_price (cur, page) rows)
    = page ++ flat_map (fun row => snd (show_row search_price None row)) rows.
Proof.
  induction rows as [|row rows IH]; intros cur page.
  - cbn. now rewrite app_nil_r.
  - cbn [show_rows fold_left fst snd flat_map].
    destruct (show_row search_price cur row) as [cur' written] eqn:E.
    fold (show_rows search_price (cur', page ++ written) rows).
    rewrite IH, <- app_assoc. do 2 f_equal.
    rewrite (written_any_category None cur row), E. reflexivity.
Qed.

Lemma blank_row_inert (cur : option string) (row : PriceRow) :
  is_blank row = true -> show_row search_price cur row = (cur, []).
Proof.
  unfold is_blank. intros H.
  pose proof (show_row_by_kind search_price cur row) as Hs.
  destruct (row_kind row); [exact Hs | discriminate | discriminate].
Qed.

(** X1: Blank rows (a missing or whitespace-only name) change nothing: the page
    and the final [current_category] are those of the table without them. *)
Theorem blank_rows_are_skipped (rows : list PriceRow) :
  pricing_page search_price rows
  = pricing_page search_price (filter (fun row => negb (is_blank row)) rows).
Proof.
  unfold pricing_page. generalize (@None string, @nil Rendered).
  induction rows as [|row rows IH]; intros st; [reflexivity|].
  cbn [filter]. destruct (is_blank row) eqn:B; cbn [negb].
  - cbn [show_rows fold_left]. rewrite (blank_row_inert (fst st) row B).
    cbn [fst snd]. rewrite app_nil_r.
    fold (show_rows search_price (fst st, snd st) rows).
    rewrite <- surjective_pairing. apply IH.
  - cbn [show_rows fold_left].
    destruct (show_row search_price (fst st) row) as [cur' written].
    fold (show_rows search_price (cur', snd st ++ written) rows).
    fold (show_rows search_price (cur', snd st ++ written)
                    (filter (fun row => negb (is_blank row)) rows)).
    apply IH.
Qed.

Lemma row_headings (row : PriceRow) :
  filter is_heading (snd (show_row search_price None row))
  = map CategoryHeading (header_name row).
Proof.
  unfold header_name.
  pose proof (show_row_by_kind search_price None row) as Hs.
  destruct (row_kind row).
  - rewrite Hs. reflexivity.
  - destruct Hs as (name & Hn & Hs). rewrite Hs, Hn. reflexivity.
  - destruct Hs as (name & Hn & Hs). rewrite Hs. cbn [snd].
    now destruct (filtered_out search_price name).
Qed.

Lemma row_service_lines (row : PriceRow) :
  List.length (filter is_service_line (snd (show_row search_price None row)))
  <= (if is_service_row row then 1 else 0)
  /\ (search_price = "" ->
      List.length (filter is_service_line (snd (show_row search_price None row)))
      = if is_service_row row then 1 else 0).
Proof.
  unfold is_service_row.
  pose proof (show_row_by_kind search_price None row) as Hs.
  destruct (row_kind row).
  - rewrite Hs. cbn. split; [lia | reflexivity].
  - destruct Hs as (name & _ & Hs). rewrite Hs. cbn. split; [lia | reflexivity].
  - destruct Hs as (name & _ & Hs). rewrite Hs. cbn [snd]. split.
    + destruct (filtered_out search_price name); cbn; lia.
    + intros ->. reflexivity.
Qed.

(** X2: Whatever is typed in the search box, the headings on the page are the
    names of the category-header rows, all of them and in table order: the
    search hides service lines only.  The page holds at most one service
    line per service row, and exactly one when the search box is empty. *)
Theorem search_keeps_every_heading (rows : list PriceRow) :
  let page := snd (pricing_page search_price rows) in
  filter is_heading page = map CategoryHeading (flat_map header_name rows)
  /\ List.length (filter is_service_line page)
     <= List.length (filter is_service_row rows)
  /\ (search_price = "" ->
      List.length (filter is_service_line page)
      = List.length (filter is_service_row rows)).
Proof.
  cbn zeta. unfold pricing_page. rewrite page_in_table_order. cbn [app].
  induction rows as [|row rows (IH1 & IH2 & IH3)].
  - cbn. repeat split; lia.
  - cbn [flat_map]. rewrite !filter_app, map_app, !length_app.
    rewrite row_headings, IH1.
    destruct (row_service_lines row) as [Hle Heq].
    split; [reflexivity|]. split.
    + cbn [filter]. destruct (is_service_row row); cbn [List.length]; lia.
    + intros Hs. rewrite (Heq Hs), (IH3 Hs). cbn [filter].
      destruct (is_service_row row); cbn [List.length]; lia.
Qed.

End PricingPageShape.

Lemma search_keeps_every_heading_witness :
  List.length (filter PageShape.is_service_line
                      (snd (App.pricing_page "" Samples.mri_table)))
  = List.length (filter PageShape.is_service_row Samples.mri_table).
Proof.
  apply (proj2 (proj2 (search_keeps_every_heading "" Samples.mri_table))).
  reflexivity.
Defined.

(** ** The search box ignores letter case *)

Section SearchCase.

Import PyStr.

Lemma lower_char_idempotent (c : ascii) : lower_char (lower_char c) = lower_char c.
Proof. destruct c as [[] [] [] [] [] [] [] []]; reflexivity. Qed.

Lemma lower_idempotent (s : string) : lower (lower s) = lower s.
Proof.
  induction s as [|c s IH]; [reflexivity|].
  cbn. now rewrite lower_char_idempotent, IH.
Qed.

Lemma lower_empty (s : string) : String.eqb (lower s) "" = String.eqb s "".
Proof. now destruct s. Qed.

Lemma filtered_out_by_lower (search_price service_name : string) :
  App.filtered_out (lower search_price) service_name
  = App.filtered_out search_price service_name.
Proof.
  unfold App.filtered_out. now rewrite lower_empty, lower_idempotent.
Qed.

Lemma show_row_by_lower (search_price : string) (cur : option string)
      (row : App.PriceRow) :
  App.show_row (lower search_price) cur row = App.show_row search_price cur row.
Proof.
  unfold App.show_row. destruct (App.col0 row) as [name|]; [|reflexivity].
  now rewrite filtered_out_by_lower.
Qed.

Lemma show_rows_by_lower (search_price : string) (rows : list App.PriceRow) :
  forall st,
    App.show_rows (lower search_price) st rows = App.show_rows search_price st rows.
Proof.
  induction rows as [|row rows IH]; intros st; [reflexivity|].
  cbn [App.show_rows fold_left]. rewrite show_row_by_lower.
  destruct (App.show_row search_price (fst st) row) as [cur' written].
  apply IH.
Qed.

(** X3: Two search texts that differ only in letter case give the same page:
    the search box ignores the letter case of what is typed. *)
Theorem search_ignores_case (s1 s2 : string) (rows : list App.PriceRow) :
  lower s1 = lower s2 ->
  App.pricing_page s1 rows = App.pricing_page s2 rows.
Proof.
  intros H. unfold App.pricing_page.
  rewrite <- (show_rows_by_lower s1), <- (show_rows_by_lower s2).
  now rewrite H.
Qed.

End SearchCase.

Lemma search_ignores_case_witness :
  App.pricing_page "HEAD mri" Samples.mri_table
  = App.pricing_page "head MRI" Samples.mri_table.
Proof. apply search_ignores_case. reflexivity. Defined.

(** ** app.py: the page of one selected category *)

Section SelectedCategory.

Import App CategoryView.

Variables selected_category search_price : string.

(** Before the selected name is met, nothing happens. *)
Lemma rows_before_category (pre rest : list PriceRow) (st : State) :
  in_category st = false ->
  (forall r, In r pre -> col0 r <> Some selected_category) ->
  CategoryView.show_rows selected_category search_price st (pre ++ rest) = CategoryView.show_rows selected_category search_price st rest.
Proof.
  intros Hin. induction pre as [|r pre IH]; intros Hpre; [reflexivity|].
  cbn [app CategoryView.show_rows].
  assert (E : CategoryView.show_row selected_category search_price st r = Next st).
  { unfold CategoryView.show_row.
    destruct (col0 r) as [name|] eqn:E0; [|reflexivity].
    destruct (String.eqb (PyStr.strip name) ""); [reflexivity|].
    destruct (String.eqb_spec name selected_category) as [->|_].
    - exfalso. now apply (Hpre r (or_introl eq_refl)).
    - now rewrite Hin. }
  rewrite E. apply IH. intros r' Hr'. apply Hpre. now right.
Qed.

Lemma row_of_category (st : State) (h : PriceRow) :
  col0 h = Some selected_category -> PyStr.strip selected_category <> "" ->
  CategoryView.show_row selected_category search_price st h = Next (mkState true (services_found st) (page st)).
Proof.
  intros H0 Hnb. unfold CategoryView.show_row. rewrite H0.
  destruct (String.eqb_spec (PyStr.strip selected_category) ""); [contradiction|].
  now rewrite String.eqb_refl.
Qed.

(** Inside the category, the loop writes what the "All" view writes. *)
Lemma rows_of_category (body rest : list PriceRow) :
  (forall r, In r body ->
             row_kind r <> CategoryHeader /\ col0 r <> Some selected_category) ->
  forall found lines,
    CategoryView.show_rows selected_category search_price (mkState true found lines) (body ++ rest)
    = CategoryView.show_rows selected_category search_price (mkState true
             (found || negb (is_empty
                               (flat_map (fun r => snd (App.show_row search_price None r))
                                         body)))
             (lines ++ flat_map (fun r => snd (App.show_row search_price None r)) body))
          rest.
Proof.
  induction body as [|r body IH]; intros Hbody found lines.
  - cbn. now rewrite orb_false_r, app_nil_r.
  - destruct (Hbody r (or_introl eq_refl)) as [Hk Hn].
    assert (IH' := IH (fun r' Hr' => Hbody r' (or_intror Hr'))).
    cbn [app CategoryView.show_rows flat_map].
    unfold CategoryView.show_row, App.show_row, row_kind in *.
    destruct (col0 r) as [name|] eqn:E0.
    + destruct (String.eqb (PyStr.strip name) "").
      * cbn [snd app]. apply IH'.
      * destruct (String.eqb_spec name selected_category) as [->|_];
          [now contradiction Hn|].
        cbn [in_category andb].
        destruct (isna (col1 r) && isna (col2 r)); [now contradiction Hk|].
        destruct (filtered_out search_price name); cbn [snd app].
        -- apply IH'.
        -- cbn [in_category services_found page]. rewrite IH'.
           cbn [is_empty negb]. rewrite orb_true_r, <- app_assoc. reflexivity.
    + cbn [snd app]. apply IH'.
Qed.

Lemma stops_at_next_header (st : State) (stop : PriceRow) (rest : list PriceRow) :
  in_category st = true ->
  row_kind stop = CategoryHeader -> col0 stop <> Some selected_category ->
  CategoryView.show_rows selected_category search_price st (stop :: rest) = st.
Proof.
  intros Hin Hk Hn. cbn [CategoryView.show_rows].
  unfold CategoryView.show_row, row_kind in *.
  destruct (col0 stop) as [name|]; [|discriminate].
  destruct (String.eqb (PyStr.strip name) ""); [discriminate|].
  destruct (String.eqb_spec name selected_category) as [->|_];
    [now contradiction Hn|].
  rewrite Hin. cbn [andb].
  now destruct (isna (col1 stop) && isna (col2 stop)).
Qed.

(** X4: Take a table in which the first row named [selected_category] is
    followed by rows [body], none of them a category header or named
    [selected_category], and then by the end of the table or a category
    header of another name.  The category view writes exactly the lines the
    "All" view writes for [body], and reports "no services found" exactly
    when there is none.  When the selected row is itself a category header,
    those lines are the ones the "All" view shows between the heading of
    that name and the next heading. *)
Theorem category_view_is_a_section_of_the_full_view
        (pre body rest : list PriceRow) (h : PriceRow) :
  (forall r, In r pre -> col0 r <> Some selected_category) ->
  col0 h = Some selected_category -> PyStr.strip selected_category <> "" ->
  (forall r, In r body ->
             row_kind r <> CategoryHeader /\ col0 r <> Some selected_category) ->
  (rest = [] \/ exists stop rest', rest = stop :: rest'
                                   /\ row_kind stop = CategoryHeader
                                   /\ col0 stop <> Some selected_category) ->
  let rows := pre ++ h :: body ++ rest in
  let lines := snd (App.show_rows search_price (Some selected_category, []) body) in
  page (category_page selected_category search_price rows) = lines
  /\ services_found (category_page selected_category search_price rows)
     = negb (is_empty lines)
  /\ (row_kind h = CategoryHeader ->
      exists before after,
        snd (pricing_page search_price rows)
        = before ++ CategoryHeading selected_category :: lines ++ after
        /\ (forall r, In r lines -> PageShape.is_heading r = false)
        /\ (after = [] \/ exists c after', after = CategoryHeading c :: after')).
Proof.
  intros Hpre H0 Hnb Hbody Hrest rows lines.
  assert (Hlines : lines = flat_map (fun r => snd (App.show_row search_price None r)) body).
  { unfold lines. now rewrite page_in_table_order. }
  assert (Hrun : category_page selected_category search_price rows
                 = mkState true (negb (is_empty lines)) lines).
  { unfold category_page, rows.
    rewrite rows_before_category by (reflexivity || exact Hpre).
    cbn [CategoryView.show_rows]. rewrite (row_of_category _ h H0 Hnb).
    cbn [services_found page]. rewrite (rows_of_category body rest Hbody).
    cbn [orb app]. rewrite <- Hlines.
    destruct Hrest as [->|(stop & rest' & -> & Hk & Hn)]; [reflexivity|].
    now apply stops_at_next_header. }
  rewrite Hrun. split; [reflexivity|]. split; [reflexivity|].
  intros Hh.
  exists (snd (pricing_page search_price pre)),
         (snd (App.show_rows search_price (None, []) rest)).
  split; [|split].
  - unfold pricing_page, rows. rewrite !page_in_table_order. cbn [app].
    rewrite flat_map_app. cbn [flat_map]. rewrite flat_map_app, <- Hlines.
    do 2 f_equal.
    pose proof (show_row_by_kind search_price None h) as Hs. rewrite Hh in Hs.
    destruct Hs as (name & Hname & Hs). rewrite Hs. cbn [snd app].
    rewrite H0 in Hname. now injection Hname as <-.
  - rewrite Hlines. intros r Hr. apply in_flat_map in Hr.
    destruct Hr as (row & Hrow & Hr).
    destruct (Hbody row Hrow) as [Hk _].
    pose proof (show_row_by_kind search_price None row) as Hs.
    destruct (row_kind row); [| now contradiction Hk |].
    + rewrite Hs in Hr. destruct Hr.
    + destruct Hs as (name & _ & Hs). rewrite Hs in Hr. cbn [snd] in Hr.
      destruct (filtered_out search_price name); [destruct Hr|].
      destruct Hr as [<-|[]]. reflexivity.
  - destruct Hrest as [->|(stop & rest' & -> & Hk & _)]; [now left|].
    right. rewrite page_in_table_order. cbn [app flat_map].
    pose proof (show_row_by_kind search_price None stop) as Hs. rewrite Hk in Hs.
    destruct Hs as (name & _ & Hs). rewrite Hs. cbn [snd app]. eauto.
Qed.



End SelectedCategory.

Lemma category_view_witness :
  CategoryView.page (CategoryView.category_page "MRI" "" Samples.two_categories)
  = [App.ServiceLine "Head MRI" Samples.p500 Samples.from_p450].
Proof.
  refine (proj1 (category_view_is_a_section_of_the_full_view
                   "MRI" "" [] [Samples.head_mri]
                   [App.mkRow (Some "CT") None None;
                    App.mkRow (Some "Head CT") (Some Samples.p450) None]
                   (App.mkRow (Some "MRI") None None) _ eq_refl _ _ _)).
  - intros r [].
  - vm_compute. discriminate.
  - intros r [<-|[]]. split; vm_compute; discriminate.
  - right. eexists _, _. split; [reflexivity|].
    split; [reflexivity | vm_compute; discriminate].
Defined.


(** ** app2.py: what the average shows when a cell raises *)

Section RaisingCells.

Import App2 PriceMetrics.

(** The loop over a column in closed form. *)
Lemma collect_closed (column : list Cell) :
  forall prices,
    for_each add_price column prices
    = if existsb raises column then Raise
      else Ok (prices ++ Spec.exact_amounts column).
Proof.
  induction column as [|c column IH]; intros prices.
  - cbn. now rewrite app_nil_r.
  - cbn [for_each bind existsb]. rewrite add_price_cases.
    unfold Spec.exact_amounts, raises at 1. cbn [flat_map].
    destruct (parse_price c); cbn [bind orb]; [| |reflexivity]; rewrite IH.
    + destruct (existsb raises column); [reflexivity|].
      now rewrite <- app_assoc.
    + reflexivity.
Qed.

(** X7: The average metric reads "Varies" exactly when some cell of the column
    raises or the column has no exact price; a single raising cell hides
    the average of all the others. *)
Theorem average_varies_iff (column : list Cell) :
  avg_price column = Varies
  <-> existsb raises column = true \/ Spec.exact_amounts column = [].
Proof.
  unfold avg_price. rewrite collect_closed. cbn [app].
  destruct (existsb raises column).
  - split; [now left | reflexivity].
  - destruct (Spec.exact_amounts column).
    + split; [now right | reflexivity].
    + split; [discriminate | intros [H|H]; discriminate].
Qed.

End RaisingCells.

Lemma average_varies_witness :
  App2.avg_price [Some Samples.p500; Some "12.5.0"] = App2.Varies.
Proof.
  apply (proj2 (average_varies_iff [Some Samples.p500; Some "12.5.0"])).
  left. reflexivity.
Defined.

(** ** app2.py: amounts are never negative *)

Section AmountBounds.

Import App2 PriceMetrics.

Open Scope Q_scope.

Lemma float_nonneg (s : string) (x : Q) : PyStr.float s = Some x -> 0 <= x.
Proof.
  unfold PyStr.float.
  set (q := Z.of_N _ # _).
  destruct (_ && _ && _)%bool; [|discriminate].
  intros H. assert (E : x = Qred q) by congruence.
  rewrite E, (Qred_correct q). unfold q, Qle. cbn. lia.
Qed.

(** An exact amount is never negative: a sign fails the digit test. *)
Lemma amount_nonneg (price : Cell) (x : Q) :
  parse_price price = Amount x -> 0 <= x.
Proof.
  rewrite parse_price_cases.
  destruct (is_price (clean price)); [|discriminate].
  destruct (PyStr.float (clean price)) as [y|] eqn:E; [|discriminate].
  intros H. injection H as <-. now apply float_nonneg in E.
Qed.

Lemma exact_amounts_nonneg (column : list Cell) (x : Q) :
  In x (Spec.exact_amounts column) -> 0 <= x.
Proof.
  unfold Spec.exact_amounts. intros H. apply in_flat_map in H.
  destruct H as (c & _ & H).
  destruct (parse_price c) eqn:E; try contradiction.
  destruct H as [<-|[]]. now apply amount_nonneg in E.
Qed.

Lemma fold_plus_from (l : list Q) : forall a, fold_left Qplus l a == a + sum l.
Proof.
  unfold sum. induction l as [|x l IH]; intros a; cbn [fold_left].
  - ring.
  - rewrite (IH (a + x)), (IH (0 + x)). ring.
Qed.

Lemma sum_cons (x : Q) (l : list Q) : sum (x :: l) == x + sum l.
Proof. unfold sum at 1. cbn [fold_left]. rewrite fold_plus_from. ring. Qed.

End AmountBounds.

(** ** app2.py: the totals behind the location chart *)

Section LocationTotals.

Import App2 PriceMetrics.

Open Scope Q_scope.

Lemma totals_closed (column : list Cell) :
  forall total,
    for_each add_total column total
    = if existsb raises column then Raise
      else Ok (fold_left Qplus (Spec.exact_amounts column) total).
Proof.
  induction column as [|c column IH]; intros total; [reflexivity|].
  cbn [for_each bind existsb]. unfold add_total, raises at 1.
  rewrite parse_price_cases. unfold Spec.exact_amounts. cbn [flat_map].
  rewrite parse_price_cases. unfold to_float.
  destruct (is_price (clean c)); [|cbn [bind orb app]; apply IH].
  destruct (PyStr.float (clean c)); cbn [bind orb app fold_left];
    [apply IH | reflexivity].
Qed.

Lemma sum_nonneg (l : list Q) : (forall x, In x l -> 0 <= x) -> 0 <= sum l.
Proof.
  induction l as [|x l IH]; intros H; [apply Qle_refl|].
  rewrite sum_cons.
  setoid_replace 0 with (0 + 0) by ring.
  apply Qplus_le_compat; [apply H; now left | apply IH].
  intros y Hy. apply H. now right.
Qed.

Lemma sum_zero_all_zero (l : list Q) :
  (forall x, In x l -> 0 <= x) -> sum l <= 0 -> forall x, In x l -> x == 0.
Proof.
  induction l as [|y l IH]; intros Hpos Hsum x Hx; [destruct Hx|].
  rewrite sum_cons in Hsum.
  assert (Hy : 0 <= y) by (apply Hpos; now left).
  assert (Hl : 0 <= sum l) by (apply sum_nonneg; intros z Hz; apply Hpos; now right).
  destruct Hx as [<-|Hx].
  - apply Qle_antisym; [|exact Hy].
    apply (Qle_trans _ (y + sum l)); [|exact Hsum].
    setoid_replace y with (y + 0) at 1 by ring.
    apply Qplus_le_compat; [apply Qle_refl | exact Hl].
  - apply IH; [intros z Hz; apply Hpos; now right | | exact Hx].
    apply (Qle_trans _ (y + sum l)); [|exact Hsum].
    setoid_replace (sum l) with (0 + sum l) at 1 by ring.
    apply Qplus_le_compat; [exact Hy | apply Qle_refl].
Qed.

Lemma all_zero_sum_zero (l : list Q) :
  (forall x, In x l -> x == 0) -> sum l == 0.
Proof.
  induction l as [|y l IH]; intros H; [reflexivity|].
  rewrite sum_cons, (H y (or_introl eq_refl)), IH; [ring|].
  intros z Hz. apply H. now right.
Qed.

(** X9: The location chart: the block raises exactly when a cell of either
    column raises; otherwise the two totals are the sums of the exact
    amounts of the columns, and "No data available" replaces the chart
    exactly when every exact amount of both columns is zero (in particular
    when there is none). *)
Theorem location_totals_cases (canary orpington : list Cell) :
  (location_totals canary orpington = Raise
   <-> existsb raises (canary ++ orpington) = true)
  /\ (forall totals,
         location_totals canary orpington = Ok (Some totals) ->
         totals = (sum (Spec.exact_amounts canary),
                   sum (Spec.exact_amounts orpington)))
  /\ (location_totals canary orpington = Ok None
      <-> existsb raises (canary ++ orpington) = false
          /\ forall x, In x (Spec.exact_amounts canary
                             ++ Spec.exact_amounts orpington) -> x == 0).
Proof.
  unfold location_totals. rewrite !totals_closed, existsb_app.
  fold (sum (Spec.exact_amounts canary)) (sum (Spec.exact_amounts orpington)).
  destruct (existsb raises canary); cbn [bind orb].
  { split; [tauto|]. split; [discriminate|].
    split; [discriminate | intros [H _]; discriminate]. }
  destruct (existsb raises orpington); cbn [bind].
  { split; [tauto|]. split; [discriminate|].
    split; [discriminate | intros [H _]; discriminate]. }
  set (ct := sum (Spec.exact_amounts canary)).
  set (ot := sum (Spec.exact_amounts orpington)).
  assert (Hzero : (forall x, In x (Spec.exact_amounts canary
                                   ++ Spec.exact_amounts orpington) -> x == 0)
                  <-> ct <= 0 /\ ot <= 0).
  { split.
    - intros H. split.
      + unfold ct. rewrite all_zero_sum_zero; [apply Qle_refl|].
        intros x Hx. apply H, in_or_app. now left.
      + unfold ot. rewrite all_zero_sum_zero; [apply Qle_refl|].
        intros x Hx. apply H, in_or_app. now right.
    - intros [Hc Ho] x Hx. apply in_app_or in Hx. destruct Hx as [Hx|Hx].
      + apply (sum_zero_all_zero (Spec.exact_amounts canary));
          [apply exact_amounts_nonneg | exact Hc | exact Hx].
      + apply (sum_zero_all_zero (Spec.exact_amounts orpington));
          [apply exact_amounts_nonneg | exact Ho | exact Hx]. }
  destruct (Qlt_le_dec 0 ct) as [Hc|Hc].
  { split; [split; discriminate|]. split; [now intros totals [= <-]|].
    split; [discriminate|]. intros [_ H]. apply Hzero in H.
    destruct H as [H _]. exfalso. now apply (Qlt_not_le 0 ct). }
  destruct (Qlt_le_dec 0 ot) as [Ho|Ho].
  { split; [split; discriminate|]. split; [now intros totals [= <-]|].
    split; [discriminate|]. intros [_ H]. apply Hzero in H.
    destruct H as [_ H]. exfalso. now apply (Qlt_not_le 0 ot). }
  split; [split; discriminate|]. split; [discriminate|].
  split; [|reflexivity]. intros _. split; [reflexivity|].
  apply Hzero. now split.
Qed.

End LocationTotals.

Lemma location_totals_witness :
  PriceMetrics.location_totals [Some "0"; Some "n/a"] [Some "0.00"] = Ok None.
Proof.
  apply (proj2 (proj2 (proj2 (location_totals_cases
                                [Some "0"; Some "n/a"] [Some "0.00"])))).
  split; [reflexivity|].
  intros x Hx. vm_compute in Hx.
  destruct Hx as [<-|[<-|[]]]; reflexivity.
Defined.

(** ** Service tokens *)

Section Tokens.

Import PyStr.

Lemma contains_empty (s : string) : contains "" s = true.
Proof. destruct s; reflexivity. Qed.

Lemma contains_tail (p : string) (c : ascii) (s : string) :
  contains p s = true -> contains p (String c s) = true.
Proof. intros H. cbn [contains]. rewrite H. apply orb_true_r. Qed.

Lemma prefix_contains (p s : string) : prefix p s = true -> contains p s = true.
Proof. intros H. destruct s; cbn [contains]; now rewrite H. Qed.

(** The first part of a split is a prefix of the text, and every part
    occurs in the text and holds no separator. *)
Lemma split_parts (sep : ascii) (s : string) :
  (exists h t, split sep s = h :: t /\ prefix h s = true /\ count_char sep h = 0)
  /\ forall p, In p (split sep s) -> contains p s = true /\ count_char sep p = 0.
Proof.
  induction s as [|c s [(h & t & Hs & Hp & Hc) IH]].
  - split; [now exists "", [] |].
    intros p [<-|[]]. now split.
  - cbn [split]. destruct (Ascii.eqb c sep) eqn:E.
    + split; [now exists "", (split sep s) |].
      intros p [<-|Hp']; [now split|].
      destruct (IH p Hp') as [H1 H2]. split; [now apply contains_tail | exact H2].
    + rewrite Hs. split.
      * exists (String c h), t. split; [reflexivity|]. split.
        -- cbn [prefix]. now destruct (ascii_dec c c).
        -- cbn [count_char]. now rewrite E, Hc.
      * intros p [<-|Hp'].
        -- split.
           ++ apply prefix_contains. cbn [prefix]. now destruct (ascii_dec c c).
           ++ cbn [count_char]. now rewrite E, Hc.
        -- destruct (IH p) as [H1 H2]; [rewrite Hs; now right|].
           split; [now apply contains_tail | exact H2].
Qed.

Lemma lstrip_suffix (s : string) : exists a, s = (a ++ lstrip s)%string.
Proof.
  induction s as [|c s [a IH]]; [now exists ""|].
  cbn [lstrip]. destruct (isspace c).
  - exists (String c a). cbn. now rewrite <- IH.
  - now exists "".
Qed.

Lemma rstrip_prefix (s : string) : exists b, s = (rstrip s ++ b)%string.
Proof.
  induction s as [|c s [b IH]]; [now exists ""|].
  cbn [rstrip]. destruct (rstrip s) as [|d r] eqn:E.
  - destruct (isspace c).
    + now exists (String c s).
    + exists s. reflexivity.
  - exists b. cbn. cbn in IH. now rewrite <- IH.
Qed.

Lemma string_app_nil_r (s : string) : (s ++ "")%string = s.
Proof. induction s as [|c s IH]; [reflexivity|]. cbn. now rewrite IH. Qed.

(** The trimmed text occurs in the text. *)
Lemma strip_contains (s : string) : contains (strip s) s = true.
Proof.
  apply contains_iff. unfold strip.
  destruct (lstrip_suffix s) as [a Ha]. destruct (rstrip_prefix (lstrip s)) as [b Hb].
  exists a, b. now rewrite <- Hb.
Qed.

Lemma count_char_app (c : ascii) (a b : string) :
  count_char c (a ++ b)%string = count_char c a + count_char c b.
Proof. induction a as [|d a IH]; [reflexivity|]. cbn. rewrite IH. lia. Qed.

Lemma strip_count_char (c : ascii) (s : string) :
  count_char c (strip s) <= count_char c s.
Proof.
  destruct (proj1 (contains_iff (strip s) s) (strip_contains s)) as (a & b & H).
  rewrite H at 2. rewrite !count_char_app. lia.
Qed.

Lemma lstrip_idempotent (s : string) : lstrip (lstrip s) = lstrip s.
Proof.
  induction s as [|c s IH]; [reflexivity|].
  cbn [lstrip]. destruct (isspace c) eqn:E; [exact IH|].
  cbn [lstrip]. now rewrite E.
Qed.

Lemma rstrip_idempotent (s : string) : rstrip (rstrip s) = rstrip s.
Proof.
  induction s as [|c s IH]; [reflexivity|].
  cbn [rstrip]. destruct (rstrip s) as [|d r] eqn:E.
  - destruct (isspace c) eqn:Ec; [reflexivity|].
    cbn [rstrip]. now rewrite Ec.
  - cbn [rstrip]. cbn [rstrip] in IH. now rewrite IH.
Qed.

Lemma lstrip_length (s : string) : String.length (lstrip s) <= String.length s.
Proof.
  induction s as [|c s IH]; [reflexivity|].
  cbn [lstrip]. destruct (isspace c); cbn [String.length]; lia.
Qed.

(** Trimming the right end leaves a trimmed left end alone. *)
Lemma lstrip_rstrip (u : string) : lstrip u = u -> lstrip (rstrip u) = rstrip u.
Proof.
  destruct u as [|c u]; [reflexivity|].
  cbn [lstrip]. destruct (isspace c) eqn:E.
  - intros H. exfalso. pose proof (lstrip_length u) as L.
    rewrite H in L. cbn [String.length] in L. lia.
  - intros _. cbn [rstrip].
    destruct (rstrip u); rewrite ?E; cbn [lstrip]; now rewrite E.
Qed.

Lemma strip_idempotent (s : string) : strip (strip s) = strip s.
Proof.
  unfold strip.
  rewrite (lstrip_rstrip (lstrip s) (lstrip_idempotent s)).
  apply rstrip_idempotent.
Qed.

Lemma token_occurs (text token : string) :
  In token (Analytics.tokens text) -> contains token text = true.
Proof.
  unfold Analytics.tokens. intros H. apply in_map_iff in H.
  destruct H as (part & <- & Hpart).
  apply (contains_trans _ part); [apply strip_contains|].
  now apply (split_parts "," text).
Qed.

(** X10: Every token of a "Services Offered" text is trimmed (trimming it again
    changes nothing), holds no comma, and occurs verbatim in the text. *)
Theorem tokens_are_trimmed (text token : string) :
  In token (Analytics.tokens text) ->
  strip token = token
  /\ count_char "," token = 0
  /\ contains token text = true.
Proof.
  intros H. split; [|split; [|now apply token_occurs]];
    unfold Analytics.tokens in H; apply in_map_iff in H;
    destruct H as (part & <- & Hpart).
  - apply strip_idempotent.
  - destruct (proj2 (split_parts "," text) part Hpart) as [_ Hn].
    pose proof (strip_count_char "," part). lia.
Qed.

End Tokens.

Lemma tokens_are_trimmed_witness :
  PyStr.strip "CT Scan" = "CT Scan"
  /\ PyStr.count_char "," "CT Scan" = 0
  /\ PyStr.contains "CT Scan" "MRI ,  CT Scan , X-Ray" = true.
Proof.
  apply (tokens_are_trimmed "MRI ,  CT Scan , X-Ray" "CT Scan").
  vm_compute. right. left. reflexivity.
Defined.

(** ** Counting tables *)

Section CountingTables.

Import Analytics.

Lemma existsb_token_contains (service text : string) :
  existsb (String.eqb service) (tokens text) = true ->
  PyStr.contains service text = true.
Proof.
  intros H. apply existsb_exists in H. destruct H as (t & Ht & E).
  apply String.eqb_eq in E. subst t.
  exact (token_occurs text service Ht).
Qed.

(** X11: For clinicians who list no service twice, the "Clinicians" count of the
    coverage table never exceeds the "Number of Clinicians" of the Services
    page of app2.py for the same service: a clinician counted by token is
    also counted by substring. *)
Theorem coverage_count_at_most_service_count
        (service : string) (services_offered : list string) :
  (forall row, In row (App2.mapped_df services_offered) -> NoDup (tokens row)) ->
  count service (service_list services_offered)
  <= App2.doctor_count service services_offered.
Proof.
  intros Hnd.
  rewrite service_list_flat, (count_clinicians service _ Hnd), doctor_count2_filter.
  apply filter_length_le. exact (existsb_token_contains service).
Qed.

Lemma list_sum_step (a : nat) (l : list nat) : list_sum (a :: l) = a + list_sum l.
Proof. reflexivity. Qed.

Lemma nodup_distinct (l : list string) : NoDup (distinct l).
Proof.
  induction l as [|x l IH]; [constructor|].
  cbn [distinct]. constructor; [|now apply NoDup_filter].
  intros H. apply filter_In in H. destruct H as [_ H].
  now rewrite String.eqb_refl in H.
Qed.

Lemma sum_indicator_absent (x : string) (keys : list string) :
  ~ In x keys ->
  list_sum (map (fun k => if String.eqb x k then 1 else 0) keys) = 0.
Proof.
  induction keys as [|k keys IH]; intros H; [reflexivity|].
  cbn [map]. rewrite !list_sum_step. destruct (String.eqb_spec x k) as [E|_].
  - exfalso. apply H. now left.
  - rewrite IH; [reflexivity|]. intros Hin. apply H. now right.
Qed.

Lemma sum_indicator (x : string) (keys : list string) :
  NoDup keys -> In x keys ->
  list_sum (map (fun k => if String.eqb x k then 1 else 0) keys) = 1.
Proof.
  induction 1 as [|k keys Hk Hnd IH]; intros Hin; [destruct Hin|].
  cbn [map]. rewrite !list_sum_step. destruct (String.eqb_spec x k) as [E|N].
  - subst k. now rewrite (sum_indicator_absent x keys Hk).
  - destruct Hin as [E|Hin]; [now contradiction N|]. now rewrite IH.
Qed.

Lemma sum_map_add {A : Type} (f g : A -> nat) (keys : list A) :
  list_sum (map (fun k => f k + g k) keys)
  = list_sum (map f keys) + list_sum (map g keys).
Proof.
  induction keys as [|k keys IH]; [reflexivity|].
  cbn [map]. rewrite !list_sum_step, IH. lia.
Qed.

(** Counting every key of a duplicate-free list that covers [l] accounts
    for each item of [l] once. *)
Lemma counts_add_up (keys l : list string) :
  NoDup keys -> (forall x, In x l -> In x keys) ->
  list_sum (map (fun k => count k l) keys) = List.length l.
Proof.
  intros Hnd. induction l as [|x l IH]; intros Hcov.
  - cbn [count List.length]. clear. induction keys as [|k keys IHk]; [reflexivity|].
    cbn [map]. rewrite list_sum_step. exact IHk.
  - change (list_sum (map (fun k => (if String.eqb x k then 1 else 0) + count k l) keys)
            = S (List.length l)).
    rewrite sum_map_add, IH by (intros y Hy; apply Hcov; now right).
    now rewrite (sum_indicator x keys Hnd (Hcov x (or_introl eq_refl))).
Qed.

Lemma value_counts_keys (l : list string) : map fst (value_counts l) = distinct l.
Proof.
  unfold value_counts. rewrite map_map. cbn [fst]. apply map_id.
Qed.

Lemma value_counts_total (l : list string) :
  list_sum (map snd (value_counts l)) = List.length l.
Proof.
  unfold value_counts. rewrite map_map. cbn [snd].
  apply counts_add_up; [apply nodup_distinct|].
  intros x Hx. now apply in_distinct.
Qed.

Lemma value_counts_positive (l : list string) (x : string) (n : nat) :
  In (x, n) (value_counts l) -> n = count x l /\ 1 <= n /\ In x l.
Proof.
  unfold value_counts. intros H. apply in_map_iff in H.
  destruct H as (k & E & Hk). injection E as <- <-.
  apply (proj1 (in_distinct k l)) in Hk.
  split; [reflexivity|]. split; [|exact Hk].
  destruct (count k l) eqn:C; [|lia].
  apply (proj1 (count_zero_iff k l)) in C. contradiction.
Qed.

(** X12: The service-coverage table never lists a service twice, gives every
    listed service at least one clinician, and its "Clinicians" column adds
    up to the number of tokens of the mapped clinicians: nothing is lost or
    counted twice by the tally. *)
Theorem coverage_table_accounts_for_every_token
        (services_offered : list string) (total_clinicians : nat) :
  let table := service_coverage services_offered total_clinicians in
  NoDup (map cov_service table)
  /\ (forall r, In r table ->
                1 <= cov_clinicians r
                /\ In (cov_service r) (service_list services_offered))
  /\ list_sum (map cov_clinicians table)
     = List.length (service_list services_offered).
Proof.
  cbn zeta. unfold service_coverage. rewrite !map_map. cbn [cov_service cov_clinicians].
  split; [|split].
  - change (NoDup (map fst (value_counts (service_list services_offered)))).
    rewrite value_counts_keys. apply nodup_distinct.
  - intros r Hr. apply in_map_iff in Hr. destruct Hr as ([x n] & <- & Hx).
    cbn [cov_clinicians cov_service fst snd].
    now apply value_counts_positive in Hx.
  - change (list_sum (map snd (value_counts (service_list services_offered)))
            = List.length (service_list services_offered)).
    apply value_counts_total.
Qed.

(** X13: The department summary names only departments of the fixed list of
    thirteen, each once and with at least one clinician, so it has at most
    thirteen lines; and its counts add up to the number of clinicians, each
    clinician being counted in exactly one department. *)
Theorem department_counts_partition_clinicians (specializations : list string) :
  let summary := Rollup.dept_counts specializations in
  NoDup (map fst summary)
  /\ (forall dept n, In (dept, n) summary ->
                     In dept Spec.departments /\ 1 <= n)
  /\ List.length summary <= 13
  /\ list_sum (map snd summary) = List.length specializations.
Proof.
  cbn zeta. unfold Rollup.dept_counts.
  set (depts := map categorize_specialization specializations).
  assert (Hnd : NoDup (map fst (value_counts depts))).
  { rewrite value_counts_keys. apply nodup_distinct. }
  assert (Hin : forall dept n, In (dept, n) (value_counts depts) ->
                               In dept Spec.departments /\ 1 <= n).
  { intros dept n H. apply value_counts_positive in H.
    destruct H as (_ & Hn & Hd). split; [|exact Hn].
    unfold depts in Hd. apply in_map_iff in Hd. destruct Hd as (s & <- & _).
    rewrite categorize_is_first_match. apply classify_in_departments. }
  split; [exact Hnd|]. split; [exact Hin|]. split.
  - rewrite <- (length_map fst).
    change 13 with (List.length Spec.departments).
    apply NoDup_incl_length; [exact Hnd|].
    intros dept Hd. apply in_map_iff in Hd. destruct Hd as ([d n] & <- & Hd).
    now apply (Hin d n).
  - rewrite value_counts_total. unfold depts. apply length_map.
Qed.

End CountingTables.

Lemma coverage_count_witness :
  Analytics.count "MRI" (Analytics.service_list ["MRI, CT Scan"; "No Match"; "Spinal MRI"])
  <= App2.doctor_count "MRI" ["MRI, CT Scan"; "No Match"; "Spinal MRI"].
Proof.
  apply coverage_count_at_most_service_count.
  intros row Hrow. vm_compute in Hrow.
  destruct Hrow as [<-|[<-|[]]]; vm_compute;
    repeat constructor; cbn [In]; intuition discriminate.
Defined.

Lemma coverage_table_witness :
  1 <= 2
  /\ In "MRI" (Analytics.service_list ["MRI, CT Scan"; "No Match"; "MRI"]).
Proof.
  apply (proj1 (proj2 (coverage_table_accounts_for_every_token
                         ["MRI, CT Scan"; "No Match"; "MRI"] 3))
               (Analytics.mkCoverage "MRI" 2 (Np.tenths 667))).
  vm_compute. left. reflexivity.
Defined.

Lemma department_counts_witness :
  In "ENT" Spec.departments /\ 1 <= 2.
Proof.
  apply (proj1 (proj2 (department_counts_partition_clinicians
                         ["ENT Surgeon"; "Cardiologist"; "Dental surgery"]))
               "ENT" 2).
  vm_compute. left. reflexivity.
Defined.

(** ** The clinicians directory *)

Section ClinicianFilters.

Import Directory.

Lemma mapped_or_unmapped (df : list MappingRow) :
  List.length df = mapped df + unmapped df.
Proof.
  unfold mapped, unmapped. induction df as [|r df IH]; [reflexivity|].
  cbn [filter]. unfold is_mapped at 1, is_unmapped at 1.
  destruct (String.eqb (Services_Offered r) "No Match");
    cbn [negb List.length]; lia.
Qed.

Lemma filter_none {A : Type} (q : A -> bool) (l : list A) :
  (forall a, In a l -> q a = false) -> filter q l = [].
Proof.
  induction l as [|a l IH]; intros H; [reflexivity|].
  cbn [filter]. rewrite (H a (or_introl eq_refl)).
  apply IH. intros b Hb. apply H. now right.
Qed.

(** A name filter keeps a sub-list of the frame. *)
Lemma by_name_keeps (search_term : string) (df df' : list MappingRow) :
  by_name search_term df = Some df' ->
  exists keep, df' = filter keep df.
Proof.
  unfold by_name. destruct (String.eqb search_term "").
  - intros [= <-]. exists (fun _ => true). clear.
    induction df as [|r df IH]; [reflexivity|]. cbn. now rewrite <- IH.
  - destruct (existsb App.regex_meta _); [discriminate|].
    intros [= <-]. eexists. reflexivity.
Qed.

Lemma filter_length_bound {A : Type} (p : A -> bool) (l : list A) :
  List.length (filter p l) <= List.length l.
Proof.
  induction l as [|a l IH]; [reflexivity|].
  cbn [filter]. destruct (p a); cbn [List.length]; lia.
Qed.

Lemma by_specialization_spec (selected_spec : string) (df : list MappingRow) (r : MappingRow) :
  In r (by_specialization selected_spec df) ->
  In r df /\ (selected_spec <> "All" -> Specialization r = selected_spec).
Proof.
  unfold by_specialization.
  destruct (String.eqb_spec selected_spec "All") as [E|N].
  - intros H. split; [exact H | contradiction].
  - intros H. apply filter_In in H. destruct H as [H1 H2].
    split; [exact H1|]. intros _. now apply String.eqb_eq.
Qed.

(** X14: The Clinicians page of app.py: the rows shown are rows of the mapping,
    of the selected specialization when one is selected, and no more than
    the mapping has; "Filtered Results" is always "Mapped" plus "Unmapped";
    with "Mapped Only" the metric "Unmapped" is 0, and with "Unmapped Only"
    the metric "Mapped" is 0. *)
Theorem directory_metrics_are_consistent
        (selected_spec search_term : string) (mapping_filter : MappingFilter)
        (mapping_df df : list MappingRow) :
  filtered_df selected_spec mapping_filter search_term mapping_df = Some df ->
  List.length df = mapped df + unmapped df
  /\ List.length df <= List.length mapping_df
  /\ (forall r, In r df ->
                In r mapping_df
                /\ (selected_spec <> "All" -> Specialization r = selected_spec))
  /\ (mapping_filter = MappedOnly -> unmapped df = 0)
  /\ (mapping_filter = UnmappedOnly -> mapped df = 0).
Proof.
  unfold filtered_df. intros H.
  apply by_name_keeps in H. destruct H as [keep ->].
  set (base := by_specialization selected_spec mapping_df).
  assert (Hbase : List.length base <= List.length mapping_df).
  { unfold base, by_specialization. destruct (String.eqb selected_spec "All");
      [reflexivity | apply filter_length_bound]. }
  split; [apply mapped_or_unmapped|]. split; [|split; [|split]].
  - etransitivity; [apply filter_length_bound|].
    destruct mapping_filter; [exact Hbase | |];
      (etransitivity; [apply filter_length_bound | exact Hbase]).
  - intros r Hr. apply filter_In in Hr. destruct Hr as [Hr _].
    apply (by_specialization_spec selected_spec mapping_df).
    destruct mapping_filter; [exact Hr | |];
      apply filter_In in Hr; now destruct Hr.
  - intros ->. unfold unmapped. rewrite filter_none; [reflexivity|].
    intros r Hr. apply filter_In in Hr. destruct Hr as [Hr _].
    apply filter_In in Hr. destruct Hr as [_ Hm].
    unfold is_mapped in Hm. unfold is_unmapped.
    now destruct (String.eqb (Services_Offered r) "No Match").
  - intros ->. unfold mapped. rewrite filter_none; [reflexivity|].
    intros r Hr. apply filter_In in Hr. destruct Hr as [Hr _].
    apply filter_In in Hr. destruct Hr as [_ Hu].
    unfold is_unmapped in Hu. unfold is_mapped. now rewrite Hu.
Qed.

End ClinicianFilters.

Lemma directory_metrics_witness :
  Directory.unmapped [Directory.mkClinician (Some "Dr. A") "Cardiology" "MRI, CT Scan"] = 0.
Proof.
  refine (proj1 (proj2 (proj2 (proj2 (directory_metrics_are_consistent
            "Cardiology" "dr" Directory.MappedOnly
            [Directory.mkClinician (Some "Dr. A") "Cardiology" "MRI, CT Scan";
             Directory.mkClinician (Some "Dr. B") "ENT" "No Match"]
            [Directory.mkClinician (Some "Dr. A") "Cardiology" "MRI, CT Scan"]
            eq_refl)))) eq_refl).
Defined.

Section DisplayOptions.

Import Directory.

Lemma filter_true_id {A : Type} (l : list A) : filter (fun _ => true) l = l.
Proof. induction l as [|a l IH]; [reflexivity|]. cbn. now rewrite IH. Qed.

Lemma filter_twice {A : Type} (p q : A -> bool) (l : list A) :
  filter q (filter p l) = filter (fun a => p a && q a) l.
Proof.
  induction l as [|a l IH]; [reflexivity|].
  cbn [filter]. destruct (p a); cbn [filter andb]; [|exact IH].
  destruct (q a); now rewrite IH.
Qed.

Lemma service_list_from_rows (df : list MappingRow) :
  forall acc,
    fold_left (fun service_list r =>
                 if has_services (Services_Offered r)
                 then service_list ++ Analytics.tokens (Services_Offered r)
                 else service_list)
              df acc
    = acc ++ flat_map row_tokens df.
Proof.
  induction df as [|r df IH]; intros acc; cbn [fold_left flat_map].
  - now rewrite app_nil_r.
  - rewrite IH. unfold row_tokens at 2.
    destruct (has_services (Services_Offered r)); [now rewrite app_assoc | reflexivity].
Qed.

Lemma service_list_rows (df : list MappingRow) :
  service_list df = flat_map row_tokens df.
Proof. unfold service_list. now rewrite service_list_from_rows. Qed.

(** Showing the unmapped clinicians with a dash adds no token. *)
Lemma tokens_of_both_frames (keep : MappingRow -> bool) (mapping_df : list MappingRow) :
  (forall r, keep (replace_no_match r) = keep r) ->
  flat_map row_tokens (filter keep (map replace_no_match mapping_df))
  = flat_map row_tokens (filter keep (filter is_mapped mapping_df)).
Proof.
  intros Hkeep. induction mapping_df as [|r df IH]; [reflexivity|].
  cbn [map filter]. rewrite Hkeep. unfold is_mapped at 1.
  unfold replace_no_match at 1.
  destruct (String.eqb_spec (Services_Offered r) "No Match") as [E|N]; cbn [negb].
  - destruct (keep r); [|exact IH]. cbn [flat_map]. now rewrite IH.
  - cbn [filter]. destruct (keep r); [|exact IH]. cbn [flat_map]. now rewrite IH.
Qed.

Lemma replace_keeps_columns (r : MappingRow) :
  Name (replace_no_match r) = Name r
  /\ Specialization (replace_no_match r) = Specialization r.
Proof.
  unfold replace_no_match.
  now destruct (String.eqb (Services_Offered r) "No Match").
Qed.

Lemma filter_ext_eq {A : Type} (p q : A -> bool) (l : list A) :
  (forall a, p a = q a) -> filter p l = filter q l.
Proof.
  intros H. induction l as [|a l IH]; [reflexivity|].
  cbn [filter]. now rewrite H, IH.
Qed.

(** The two filters as one. *)
Lemma rows_shown (regex_search : string -> option (string -> bool))
      (selected_spec search_term : string) (df : list MappingRow) :
  by_name_regex regex_search search_term (by_specialization selected_spec df)
  = option_map (fun name_ok => filter (shown selected_spec name_ok) df)
               (name_test regex_search search_term).
Proof.
  unfold by_name_regex, name_test, by_specialization, shown.
  destruct (String.eqb search_term ""); cbn [option_map].
  - f_equal. destruct (String.eqb selected_spec "All").
    + symmetry. apply filter_true_id.
    + apply filter_ext_eq. intros r. now rewrite andb_true_r.
  - destruct (regex_search search_term) as [found|]; [|reflexivity].
    cbn [option_map]. f_equal.
    destruct (String.eqb selected_spec "All").
    + reflexivity.
    + apply filter_twice.
Qed.

Lemma name_test_defined (regex_search : string -> option (string -> bool))
      (search_term : string) :
  search_term = "" \/ regex_search search_term <> None ->
  exists name_ok, name_test regex_search search_term = Some name_ok.
Proof.
  unfold name_test. intros [-> | H]; [now eexists|].
  destruct (String.eqb search_term ""); [now eexists|].
  destruct (regex_search search_term); [now eexists | contradiction].
Qed.

(** The providers shown are never more than the clinicians shown. *)
Lemma providers_at_most_all (keep : MappingRow -> bool) (mapping_df : list MappingRow) :
  (forall r, keep (replace_no_match r) = keep r) ->
  List.length (filter keep (filter is_mapped mapping_df))
  <= List.length (filter keep (map replace_no_match mapping_df)).
Proof.
  intros Hkeep. induction mapping_df as [|r df IH]; [apply Nat.le_refl|].
  cbn [map filter]. rewrite Hkeep.
  destruct (is_mapped r); cbn [filter]; destruct (keep r); cbn [List.length]; lia.
Qed.

Lemma shown_after_replace (selected_spec : string) (name_ok : Cell -> bool)
      (r : MappingRow) :
  shown selected_spec name_ok (replace_no_match r) = shown selected_spec name_ok r.
Proof.
  unfold shown.
  now rewrite (proj1 (replace_keeps_columns r)), (proj2 (replace_keeps_columns r)).
Qed.

(** X15: The two display options of the Clinicians page of app2.py give the same
    list of service tokens, whatever specialization and name are selected and
    whatever the regular-expression search does with the name: "Services
    Covered" and the services chart do not depend on whether the clinicians
    without services are shown.  When the search box is empty or its text
    compiles, both options show a table, with the same tokens and the same
    "Services Covered", and "Show Service Providers Only" shows at most as
    many clinicians; when the text does not compile both options raise. *)
Theorem services_covered_same_for_both_options
        (regex_search : string -> option (string -> bool))
        (selected_spec search_term : string) (mapping_df : list MappingRow) :
  option_map service_list
    (filtered_df2 regex_search ShowAll selected_spec search_term mapping_df)
  = option_map service_list
      (filtered_df2 regex_search ProvidersOnly selected_spec search_term mapping_df)
  /\ option_map unique_services
       (filtered_df2 regex_search ShowAll selected_spec search_term mapping_df)
     = option_map unique_services
         (filtered_df2 regex_search ProvidersOnly selected_spec search_term mapping_df)
  /\ (search_term = "" \/ regex_search search_term <> None ->
      exists all providers,
        filtered_df2 regex_search ShowAll selected_spec search_term mapping_df
        = Some all
        /\ filtered_df2 regex_search ProvidersOnly selected_spec search_term mapping_df
           = Some providers
        /\ service_list all = service_list providers
        /\ unique_services all = unique_services providers
        /\ List.length providers <= List.length all)
  /\ (search_term <> "" -> regex_search search_term = None ->
      filtered_df2 regex_search ShowAll selected_spec search_term mapping_df = None
      /\ filtered_df2 regex_search ProvidersOnly selected_spec search_term mapping_df
         = None).
Proof.
  assert (Hsame : forall name_ok,
             service_list (filter (shown selected_spec name_ok)
                                  (map replace_no_match mapping_df))
             = service_list (filter (shown selected_spec name_ok)
                                    (filter is_mapped mapping_df))).
  { intros name_ok. rewrite !service_list_rows.
    apply tokens_of_both_frames, shown_after_replace. }
  unfold filtered_df2, unique_services. rewrite !rows_shown.
  split; [|split; [|split]].
  - destruct (name_test regex_search search_term) as [name_ok|]; [|reflexivity].
    cbn [option_map]. now rewrite Hsame.
  - destruct (name_test regex_search search_term) as [name_ok|]; [|reflexivity].
    cbn [option_map]. now rewrite Hsame.
  - intros H. destruct (name_test_defined regex_search search_term H) as [name_ok ->].
    cbn [option_map]. do 2 eexists. split; [reflexivity|]. split; [reflexivity|].
    rewrite Hsame. split; [reflexivity|]. split; [reflexivity|].
    apply providers_at_most_all, shown_after_replace.
  - intros Hne Hnone. unfold name_test.
    destruct (String.eqb_spec search_term "") as [E|_]; [contradiction|].
    rewrite Hnone. now split.
Qed.

(** The search "Dr. A", whose dot is a metacharacter, on three clinicians. *)
Lemma services_covered_witness :
  let mapping_df := [mkClinician (Some "Dr. Adams") "ENT" "Hearing Test, Ear Wax Removal";
                     mkClinician (Some "Dr Zane") "ENT" "Hearing Test";
                     mkClinician (Some "DR. ALI") "Cardiology" "No Match";
                     mkClinician None "ENT" "ECG"] in
  ("Dr. A" = "" \/ dot_search "Dr. A" <> None)
  /\ filtered_df2 dot_search ShowAll "All" "Dr. A" mapping_df
     = Some [mkClinician (Some "Dr. Adams") "ENT" "Hearing Test, Ear Wax Removal";
             mkClinician (Some "DR. ALI") "Cardiology" "-"]
  /\ filtered_df2 dot_search ProvidersOnly "All" "Dr. A" mapping_df
     = Some [mkClinician (Some "Dr. Adams") "ENT" "Hearing Test, Ear Wax Removal"]
  /\ exists all providers,
       filtered_df2 dot_search ShowAll "All" "Dr. A" mapping_df = Some all
       /\ filtered_df2 dot_search ProvidersOnly "All" "Dr. A" mapping_df = Some providers
       /\ service_list all = service_list providers
       /\ unique_services all = unique_services providers
       /\ List.length providers <= List.length all.
Proof.
  cbv zeta.
  assert (H : "Dr. A" = "" \/ dot_search "Dr. A" <> None)
    by (right; vm_compute; discriminate).
  split; [exact H|]. split; [reflexivity|]. split; [reflexivity|].
  exact (proj1 (proj2 (proj2 (services_covered_same_for_both_options
                                dot_search "All" "Dr. A" _))) H).
Defined.

End DisplayOptions.

(** ** app2.py: the clinician cards *)

Section Cards.

Import Directory.

Context {A : Type}.

Lemma firstn_then_more (a b : nat) (l : list A) :
  firstn a l ++ firstn b (skipn a l) = firstn (a + b) l.
Proof.
  revert l. induction a as [|a IH]; intros l; [reflexivity|].
  destruct l as [|x l]; cbn [firstn skipn Nat.add app].
  - now rewrite firstn_nil.
  - now rewrite IH.
Qed.

Lemma chunks_concat (l : list A) (fuel : nat) :
  forall start stop,
    List.concat (map (fun i => firstn 3 (skipn i l)) (range_from fuel start stop 3))
    = firstn (3 * List.length (range_from fuel start stop 3)) (skipn start l).
Proof.
  induction fuel as [|fuel IH]; intros start stop; [reflexivity|].
  cbn [range_from]. destruct (start <? stop)%nat; [|reflexivity].
  cbn [map List.concat List.length]. rewrite IH.
  replace (start + 3) with (3 + start) by lia.
  rewrite <- skipn_skipn.
  replace (3 * S (List.length (range_from fuel (3 + start) stop 3)))
    with (3 + 3 * List.length (range_from fuel (3 + start) stop 3)) by lia.
  apply firstn_then_more.
Qed.

Lemma range_from_below (fuel : nat) :
  forall start stop i, In i (range_from fuel start stop 3) -> i < stop.
Proof.
  induction fuel as [|fuel IH]; intros start stop i; [intros []|].
  cbn [range_from]. destruct (Nat.ltb_spec start stop) as [H|H]; [|intros []].
  intros [<-|Hi]; [exact H | now apply (IH (start + 3))].
Qed.

Lemma range_by_three (m : nat) :
  m <= 12 ->
  List.length (range 0 m 3) = (m + 2) / 3
  /\ m <= 3 * List.length (range 0 m 3)
  /\ 3 * List.length (range 0 m 3) <= 12.
Proof.
  intros H.
  do 13 (destruct m as [|m]; [vm_compute; repeat split; lia|]).
  lia.
Qed.

(** X16: The cards show the first twelve clinicians of the filtered frame, in
    order and each once, in rows of three: at most four rows, none empty,
    and only the last one may hold fewer than three cards. *)
Theorem cards_show_first_twelve (card_filtered_df : list A) :
  List.concat (clinician_rows card_filtered_df) = firstn 12 card_filtered_df
  /\ List.length (clinician_rows card_filtered_df)
     = (Nat.min (List.length card_filtered_df) 12 + 2) / 3
  /\ List.length (clinician_rows card_filtered_df) <= 4
  /\ Forall (fun row => 1 <= List.length row <= 3) (clinician_rows card_filtered_df).
Proof.
  unfold clinician_rows.
  set (m := Nat.min (List.length card_filtered_df) 12).
  assert (Hm : m <= 12) by apply Nat.le_min_r.
  destruct (range_by_three m Hm) as (Hlen & Hlo & Hhi).
  split; [|split; [|split]].
  - unfold range. rewrite chunks_concat. fold (range 0 m 3). cbn [skipn].
    destruct (Nat.le_gt_cases 12 (List.length card_filtered_df)) as [Hl|Hl].
    + assert (E : m = 12) by (unfold m; lia). rewrite E in *.
      reflexivity.
    + assert (E : m = List.length card_filtered_df) by (unfold m; lia).
      rewrite !firstn_all2; [reflexivity | lia | lia].
  - now rewrite length_map.
  - rewrite length_map. lia.
  - apply Forall_forall. intros row Hrow. apply in_map_iff in Hrow.
    destruct Hrow as (i & <- & Hi). apply range_from_below in Hi.
    rewrite length_firstn, length_skipn.
    assert (m <= List.length card_filtered_df) by apply Nat.le_min_l. lia.
Qed.

End Cards.

Section CardTitles.

Import Directory.

Lemma substring_length (n : nat) (s : string) :
  String.length (substring 0 n s) = Nat.min n (String.length s).
Proof.
  revert s. induction n as [|n IH]; intros s.
  - now destruct s.
  - destruct s as [|c s]; [reflexivity|]. cbn. now rewrite IH.
Qed.

Lemma substring_all (n : nat) (s : string) :
  String.length s <= n -> substring 0 n s = s.
Proof.
  revert s. induction n as [|n IH]; intros s H.
  - destruct s; [reflexivity | cbn in H; lia].
  - destruct s as [|c s]; [reflexivity|]. cbn in *. rewrite IH; [reflexivity | lia].
Qed.

Lemma substring_prefix (n : nat) (s : string) : prefix (substring 0 n s) s = true.
Proof.
  revert s. induction n as [|n IH]; intros s.
  - now destruct s.
  - destruct s as [|c s]; [reflexivity|]. cbn.
    destruct (ascii_dec c c); [apply IH | contradiction].
Qed.

Lemma string_length_app (a b : string) :
  String.length (a ++ b)%string = String.length a + String.length b.
Proof. induction a as [|c a IH]; [reflexivity|]. cbn. now rewrite IH. Qed.

(** X17: A card title (and a chart label) is the name itself when the name has
    at most 30 characters; a longer name is cut to its first 30 characters
    followed by three dots, so a title never exceeds 33 characters. *)
Theorem card_title_is_bounded (name : string) :
  String.length (card_title name) <= 33
  /\ (String.length name <= 30 -> card_title name = name)
  /\ (30 < String.length name ->
      card_title name = (substring 0 30 name ++ "...")%string
      /\ String.length (card_title name) = 33
      /\ prefix (substring 0 30 name) name = true).
Proof.
  unfold card_title. split; [|split].
  - rewrite string_length_app, substring_length.
    destruct (30 <? String.length name)%nat; cbn [String.length]; lia.
  - intros H. destruct (Nat.ltb_spec 30 (String.length name)) as [L|_]; [lia|].
    rewrite substring_all by exact H. apply string_app_nil_r.
  - intros H. destruct (Nat.ltb_spec 30 (String.length name)) as [_|L]; [|lia].
    split; [reflexivity|]. split; [|apply substring_prefix].
    rewrite string_length_app, substring_length. cbn [String.length]. lia.
Qed.

End CardTitles.

Lemma card_title_witness :
  Directory.card_title "Dr. Bartholomew Featherstonehaugh-Smythe"
  = "Dr. Bartholomew Featherstoneha..."
  /\ String.length (Directory.card_title "Dr. Bartholomew Featherstonehaugh-Smythe") = 33
  /\ prefix "Dr. Bartholomew Featherstoneha"
            "Dr. Bartholomew Featherstonehaugh-Smythe" = true.
Proof.
  apply (proj2 (proj2 (card_title_is_bounded
                         "Dr. Bartholomew Featherstonehaugh-Smythe"))).
  vm_compute. lia.
Defined.

(** ** app2.py: the Services page *)

Section ServiceFilters.

Import ServicesPage.

Lemma filter_all {A : Type} (p : A -> bool) (l : list A) :
  (forall a, In a l -> p a = true) -> filter p l = l.
Proof.
  induction l as [|a l IH]; intros H; [reflexivity|].
  cbn [filter]. rewrite (H a (or_introl eq_refl)). f_equal.
  apply IH. intros b Hb. apply H. now right.
Qed.

Lemma sum_at_least (f : ServiceRow -> nat) (k : nat) (l : list ServiceRow) :
  (forall r, In r l -> k <= f r) -> k * List.length l <= list_sum (map f l).
Proof.
  induction l as [|r l IH]; intros H; [cbn; lia|].
  cbn [map List.length]. rewrite list_sum_step.
  pose proof (H r (or_introl eq_refl)).
  pose proof (IH (fun x Hx => H x (or_intror Hx))). lia.
Qed.

Lemma insert_desc_perm (r : ServiceRow) (l : list ServiceRow) :
  Permutation (insert_desc r l) (r :: l).
Proof.
  induction l as [|x l IH]; [reflexivity|].
  cbn [insert_desc]. destruct (Number_of_Clinicians x <=? Number_of_Clinicians r)%nat.
  - reflexivity.
  - rewrite IH. apply perm_swap.
Qed.

Lemma sort_desc_perm (l : list ServiceRow) : Permutation (sort_desc l) l.
Proof.
  induction l as [|r l IH]; [constructor|].
  cbn [sort_desc fold_right]. fold (sort_desc l).
  rewrite insert_desc_perm. now constructor.
Qed.

(** X18: The Services page, for any sort that only reorders the rows: every
    service shown is a row of the table with at least [min_doctors]
    clinicians, so "Total Assignments" is at least [min_doctors] times
    "Total Services"; "With Pricing" never exceeds "Total Services", equals
    it under the filter "With Pricing" and is 0 under "Contact for
    Pricing"; with no filter and a minimum of 0 every service is shown. *)
Theorem services_metrics_are_consistent
        (sort_values : list ServiceRow -> list ServiceRow)
        (show_pricing : ShowPricing) (min_doctors : nat)
        (service_df : list ServiceRow) :
  (forall l, Permutation (sort_values l) l) ->
  let shown := filtered_services sort_values show_pricing min_doctors service_df in
  (forall r, In r shown -> In r service_df /\ min_doctors <= Number_of_Clinicians r)
  /\ min_doctors * total_services shown <= total_assignments shown
  /\ with_pricing shown <= total_services shown
  /\ (show_pricing = WithPricing -> with_pricing shown = total_services shown)
  /\ (show_pricing = ContactForPricing -> with_pricing shown = 0)
  /\ (show_pricing = AllServices -> min_doctors = 0 ->
      total_services shown = List.length service_df).
Proof.
  intros Hperm shown.
  set (base := match show_pricing with
               | WithPricing => filter Pricing_Available service_df
               | ContactForPricing =>
                   filter (fun r => negb (Pricing_Available r)) service_df
               | AllServices => service_df
               end).
  assert (Hshown : Permutation shown
                     (filter (fun r => (min_doctors <=? Number_of_Clinicians r)%nat) base))
    by apply Hperm.
  assert (Hin : forall r, In r shown ->
                          In r base /\ min_doctors <= Number_of_Clinicians r).
  { intros r Hr. apply (Permutation_in _ Hshown) in Hr.
    apply filter_In in Hr. destruct Hr as [Hb Hm].
    split; [exact Hb | now apply Nat.leb_le]. }
  split; [|split; [|split; [|split; [|split]]]].
  - intros r Hr. destruct (Hin r Hr) as [Hb Hm]. split; [|exact Hm].
    unfold base in Hb. destruct show_pricing; [exact Hb | |];
      apply filter_In in Hb; now destruct Hb.
  - unfold total_services, total_assignments. apply sum_at_least.
    intros r Hr. now apply Hin.
  - apply filter_length_bound.
  - intros E. unfold with_pricing, total_services. rewrite filter_all; [reflexivity|].
    intros r Hr. destruct (Hin r Hr) as [Hb _]. unfold base in Hb. rewrite E in Hb.
    apply filter_In in Hb. now destruct Hb.
  - intros E. unfold with_pricing. rewrite filter_none; [reflexivity|].
    intros r Hr. destruct (Hin r Hr) as [Hb _]. unfold base in Hb. rewrite E in Hb.
    apply filter_In in Hb. destruct Hb as [_ Hb]. now apply negb_true_iff.
  - intros E ->. unfold total_services. rewrite (Permutation_length Hshown).
    unfold base. rewrite E. now rewrite filter_true_id.
Qed.

End ServiceFilters.

Lemma services_metrics_witness :
  ServicesPage.with_pricing
    (ServicesPage.filtered_services ServicesPage.sort_desc ServicesPage.WithPricing 1
       (ServicesPage.service_analysis ["MRI"; "X-Ray"; "Dental"] ["MRI, X-Ray"; "MRI"]))
  = ServicesPage.total_services
      (ServicesPage.filtered_services ServicesPage.sort_desc ServicesPage.WithPricing 1
         (ServicesPage.service_analysis ["MRI"; "X-Ray"; "Dental"] ["MRI, X-Ray"; "MRI"])).
Proof.
  apply (proj1 (proj2 (proj2 (proj2
           (services_metrics_are_consistent
              ServicesPage.sort_desc ServicesPage.WithPricing 1
              (ServicesPage.service_analysis ["MRI"; "X-Ray"; "Dental"]
                                             ["MRI, X-Ray"; "MRI"])
              sort_desc_perm))))).
  reflexivity.
Defined.

(** ** app2.py: loading the price lists *)

Section EncodingFallback.

Import Loader.

Context {F : Type}.

Variable read_csv : string -> ReadResult F.

(** X19: The fallback over a list of encodings: the frame comes from the first
    encoding that does not raise UnicodeDecodeError, and only if that one
    reads; any other error there ends the attempt at once; "Unable to decode
    file with any encoding" is reported exactly when every encoding raises
    UnicodeDecodeError. *)
Theorem encoding_fallback_takes_first_success (encodings : list string) :
  (forall encoding df,
      try_encodings read_csv encodings = Frame encoding df <->
      exists before after,
        encodings = before ++ encoding :: after
        /\ (forall e, In e before -> read_csv e = UnicodeDecodeError)
        /\ read_csv encoding = Read df)
  /\ (try_encodings read_csv encodings = Undecodable <->
      forall e, In e encodings -> read_csv e = UnicodeDecodeError)
  /\ (try_encodings read_csv encodings = Failed <->
      exists before encoding after,
        encodings = before ++ encoding :: after
        /\ (forall e, In e before -> read_csv e = UnicodeDecodeError)
        /\ read_csv encoding = OtherError).
Proof.
  induction encodings as [|e rest (IHf & IHu & IHo)].
  - split; [|split].
    + intros encoding df. split; [discriminate|].
      intros (b & a & H & _). now destruct b.
    + split; [intros _ e [] | reflexivity].
    + split; [discriminate|]. intros (b & x & a & H & _). now destruct b.
  - cbn [try_encodings]. split; [|split].
    + intros encoding df. destruct (read_csv e) as [df'| |] eqn:E.
      * split.
        -- intros [= <- <-]. exists [], rest. repeat split; [intros x []|exact E].
        -- intros (b & a & H & Hb & Hr). destruct b as [|x b].
           ++ injection H as <- <-. congruence.
           ++ injection H as <- _. rewrite (Hb e (or_introl eq_refl)) in E.
              discriminate.
      * rewrite IHf. split.
        -- intros (b & a & -> & Hb & Hr). exists (e :: b), a.
           repeat split; [|exact Hr]. intros x [<-|Hx]; [exact E | now apply Hb].
        -- intros (b & a & H & Hb & Hr). destruct b as [|x b].
           ++ injection H as <- <-. congruence.
           ++ injection H as <- ->. exists b, a.
              repeat split; [|exact Hr]. intros y Hy. apply Hb. now right.
      * split; [discriminate|].
        intros (b & a & H & Hb & Hr). destruct b as [|x b].
        -- injection H as <- <-. congruence.
        -- injection H as <- _. rewrite (Hb e (or_introl eq_refl)) in E.
           discriminate.
    + destruct (read_csv e) eqn:E.
      * split; [discriminate|]. intros H.
        rewrite (H e (or_introl eq_refl)) in E. discriminate.
      * rewrite IHu. split.
        -- intros H x [<-|Hx]; [exact E | now apply H].
        -- intros H x Hx. apply H. now right.
      * split; [discriminate|]. intros H.
        rewrite (H e (or_introl eq_refl)) in E. discriminate.
    + destruct (read_csv e) eqn:E.
      * split; [discriminate|].
        intros (b & x & a & H & Hb & Hr). destruct b as [|y b].
        -- injection H as <- <-. congruence.
        -- injection H as <- _. rewrite (Hb e (or_introl eq_refl)) in E.
           discriminate.
      * rewrite IHo. split.
        -- intros (b & x & a & -> & Hb & Hr). exists (e :: b), x, a.
           repeat split; [|exact Hr]. intros y [<-|Hy]; [exact E | now apply Hb].
        -- intros (b & x & a & H & Hb & Hr). destruct b as [|y b].
           ++ injection H as <- <-. congruence.
           ++ injection H as <- ->. exists b, x, a.
              repeat split; [|exact Hr]. intros z Hz. apply Hb. now right.
      * split; [|reflexivity]. intros _. exists [], e, rest.
        repeat split; [intros x []|exact E].
Qed.

(** X20: With the list of app2.py: when reading as latin-1 does not raise
    UnicodeDecodeError, the outcome is fixed by the utf-8 and latin-1
    attempts alone: cp1252 and iso-8859-1 are never tried and "Unable to
    decode" is never reported. *)
Theorem later_encodings_are_never_tried (other : string -> ReadResult F) :
  read_csv "latin-1" <> UnicodeDecodeError ->
  other "utf-8" = read_csv "utf-8" ->
  other "latin-1" = read_csv "latin-1" ->
  load_csv other = load_csv read_csv
  /\ load_csv read_csv <> Undecodable
  /\ load_csv read_csv = try_encodings read_csv ["utf-8"; "latin-1"].
Proof.
  intros Hl H1 H2. unfold load_csv, encodings. cbn [try_encodings].
  rewrite H1, H2.
  destruct (read_csv "utf-8"); [repeat split; discriminate| |repeat split; discriminate].
  destruct (read_csv "latin-1"); [repeat split; discriminate| |repeat split; discriminate].
  contradiction.
Qed.

End EncodingFallback.

Lemma encoding_fallback_witness :
  Loader.try_encodings
    (fun e => if String.eqb e "utf-8" then Loader.UnicodeDecodeError
              else Loader.Read Samples.mri_frame)
    Loader.encodings
  = Loader.Frame "latin-1" Samples.mri_frame.
Proof.
  apply (proj1 (encoding_fallback_takes_first_success _ Loader.encodings)).
  exists ["utf-8"], ["cp1252"; "iso-8859-1"].
  split; [reflexivity|]. split; [|reflexivity].
  intros e [<-|[]]. reflexivity.
Defined.

Lemma later_encodings_witness :
  Loader.load_csv (fun e => if String.eqb e "utf-8" then Loader.UnicodeDecodeError
                            else Loader.Read Samples.mri_frame)
  <> Loader.Undecodable.
Proof.
  refine (proj1 (proj2 (later_encodings_are_never_tried
            (fun e => if String.eqb e "utf-8" then Loader.UnicodeDecodeError
                      else Loader.Read Samples.mri_frame)
            (fun e => if String.eqb e "utf-8" then Loader.UnicodeDecodeError
                      else Loader.Read Samples.mri_frame)
            _ eq_refl eq_refl))).
  vm_compute. discriminate.
Defined.

(** ** app2.py: which category a pricing tab shows *)

Section PricingTabs.

Import Loader.

Context {F : Type}.

Variable load : string -> option F.

Lemma names_when_all_load (files : list (string * string)) :
  (forall cf, In cf files -> load (snd cf) <> None) ->
  map fst (pricing_data load files) = map fst files.
Proof.
  induction files as [|cf files IH]; intros H; [reflexivity|].
  cbn [pricing_data flat_map map]. fold (pricing_data load files).
  destruct (load (snd cf)) as [df|] eqn:E.
  - cbn [app map fst]. f_equal. apply IH. intros x Hx. apply H. now right.
  - exfalso. now apply (H cf (or_introl eq_refl)).
Qed.

Lemma pricing_data_app (a b : list (string * string)) :
  pricing_data load (a ++ b) = pricing_data load a ++ pricing_data load b.
Proof. unfold pricing_data. apply flat_map_app. Qed.

Lemma names_are_file_names (files : list (string * string)) (c : string) :
  In c (map fst (pricing_data load files)) -> In c (map fst files).
Proof.
  induction files as [|cf files IH]; [intros []|].
  cbn [pricing_data flat_map map]. fold (pricing_data load files).
  rewrite map_app. intros H. apply in_app_or in H. destruct H as [H|H].
  - destruct (load (snd cf)); [|destruct H]. destruct H as [<-|[]]. now left.
  - right. now apply IH.
Qed.

Lemma loaded_at_most (files : list (string * string)) :
  List.length (pricing_data load files) <= List.length files.
Proof.
  induction files as [|cf files IH]; [reflexivity|].
  cbn [pricing_data flat_map]. fold (pricing_data load files).
  rewrite length_app. destruct (load (snd cf)); cbn [List.length]; lia.
Qed.

Lemma loaded_fewer (files : list (string * string)) (cf : string * string) :
  In cf files -> load (snd cf) = None ->
  List.length (pricing_data load files) < List.length files.
Proof.
  induction files as [|x files IH]; [intros []|].
  cbn [pricing_data flat_map]. fold (pricing_data load files).
  rewrite length_app. intros [->|Hin] Hnone.
  - rewrite Hnone. cbn [List.length]. pose proof (loaded_at_most files). lia.
  - specialize (IH Hin Hnone).
    destruct (load (snd x)); cbn [List.length]; lia.
Qed.

(** X21: The tabs are matched to the loaded categories by position.  When every
    file loads, tab number [idx] shows the category number [idx] of the file
    list.  A tab raises IndexError exactly when its number is not below the
    number of categories loaded; so as soon as one file fails to load, the
    last tab raises.  If the first file to fail is number [k], the tabs
    before it are unaffected and tab [k] shows a later category instead of
    its own, or raises. *)
Theorem tabs_follow_loaded_categories (files : list (string * string)) :
  NoDup (map fst files) ->
  ((forall cf, In cf files -> load (snd cf) <> None) ->
   forall idx, tab_category load files idx = nth_error (map fst files) idx)
  /\ (forall idx, tab_category load files idx = None
                  <-> List.length (pricing_data load files) <= idx)
  /\ (forall cf, In cf files -> load (snd cf) = None ->
                 tab_category load files (List.length files - 1) = None)
  /\ (forall before cf after,
         files = before ++ cf :: after ->
         (forall x, In x before -> load (snd x) <> None) ->
         load (snd cf) = None ->
         (forall idx, idx < List.length before ->
                      tab_category load files idx = nth_error (map fst files) idx)
         /\ tab_category load files (List.length before) <> Some (fst cf)
         /\ forall c, tab_category load files (List.length before) = Some c ->
                      In c (map fst after)).
Proof.
  intros Hnd. unfold tab_category. split; [|split; [|split]].
  - intros H idx. now rewrite names_when_all_load.
  - intros idx. rewrite nth_error_None. now rewrite length_map.
  - intros cf Hin Hnone. apply nth_error_None. rewrite length_map.
    pose proof (loaded_fewer files cf Hin Hnone). lia.
  - intros before cf after -> Hbefore Hnone.
    rewrite pricing_data_app, !map_app.
    rewrite (names_when_all_load before Hbefore).
    cbn [pricing_data flat_map map]. fold (pricing_data load after).
    rewrite Hnone. cbn [app].
    assert (Hlen : List.length (map fst before) = List.length before)
      by apply length_map.
    assert (Hat : forall c,
               nth_error (map fst before ++ map fst (pricing_data load after))
                         (List.length before) = Some c ->
               In c (map fst after)).
    { intros c Hc. rewrite nth_error_app2 in Hc by lia.
      apply nth_error_In in Hc. now apply names_are_file_names. }
    split; [|split].
    + intros idx Hidx. rewrite !nth_error_app1 by lia. reflexivity.
    + intros Hc. apply Hat in Hc.
      rewrite map_app in Hnd. cbn [map] in Hnd.
      apply NoDup_remove_2 in Hnd. apply Hnd. apply in_or_app. now right.
    + exact Hat.
Qed.

End PricingTabs.

Lemma tabs_witness :
  Loader.tab_category
    (fun path => if String.eqb path "prices/ct.csv" then None else Some Samples.mri_frame)
    Loader.csv_files 8
  = None.
Proof.
  refine (proj1 (proj2 (proj2 (tabs_follow_loaded_categories
            (fun path => if String.eqb path "prices/ct.csv" then None
                         else Some Samples.mri_frame)
            Loader.csv_files _)))
            ("CT", "prices/ct.csv") _ eq_refl).
  - vm_compute. repeat constructor; cbn [In]; intuition discriminate.
  - vm_compute. do 3 right. left. reflexivity.
Defined.

(** ** Cleaning a price cell twice *)

Section CleanTwice.

Import PyStr.

Lemma count_after_remove (c : ascii) (s : string) : count_char c (remove_char c s) = 0.
Proof.
  induction s as [|d s IH]; [reflexivity|].
  cbn [remove_char]. destruct (Ascii.eqb d c) eqn:E; [exact IH|].
  cbn [count_char]. now rewrite E, IH.
Qed.

Lemma count_remove_other (c d : ascii) (s : string) :
  count_char c (remove_char d s) <= count_char c s.
Proof.
  induction s as [|x s IH]; [reflexivity|].
  cbn [remove_char]. destruct (Ascii.eqb x d); cbn [count_char]; lia.
Qed.

Lemma remove_absent (c : ascii) (s : string) :
  count_char c s = 0 -> remove_char c s = s.
Proof.
  induction s as [|d s IH]; [reflexivity|].
  cbn [count_char remove_char]. destruct (Ascii.eqb d c); [discriminate|].
  cbn [Nat.add]. intros H. now rewrite IH.
Qed.

(** X22: Cleaning is idempotent: the cleaned text of a cell, put back in a cell,
    cleans to itself, so it gets the same outcome (amount, nothing, or a
    raise) as the original cell. *)
Theorem cleaning_twice_changes_nothing (price : Cell) :
  App2.clean (Some (App2.clean price)) = App2.clean price
  /\ App2.parse_price (Some (App2.clean price)) = App2.parse_price price.
Proof.
  assert (E : App2.clean (Some (App2.clean price)) = App2.clean price).
  { unfold App2.clean at 1. cbn [str].
    set (t := remove_char "," (remove_char pound (str price))).
    assert (Ht : App2.clean price = strip t) by reflexivity. rewrite Ht.
    assert (Hp : count_char pound (strip t) = 0).
    { pose proof (strip_count_char pound t).
      pose proof (count_remove_other pound "," (remove_char pound (str price))).
      pose proof (count_after_remove pound (str price)). unfold t in *. lia. }
    assert (Hc : count_char "," (strip t) = 0).
    { pose proof (strip_count_char "," t).
      pose proof (count_after_remove "," (remove_char pound (str price))).
      unfold t in *. lia. }
    rewrite (remove_absent pound _ Hp), (remove_absent "," _ Hc).
    apply strip_idempotent. }
  split; [exact E|]. now rewrite !parse_price_cases, E.
Qed.

End CleanTwice.

(** ** A free Orpington service *)

Section ZeroPrice.

Import App2.

Open Scope Q_scope.

(** X23: A row of the price-difference table whose Orpington price is 0 gets the
    percentage 0 (the quotient is not computed) and a difference equal to
    the Canary Wharf price. *)
Theorem zero_orpington_price_gives_zero_percent
        (rows : list PriceRow) (diffs : list PriceDiff) (d : PriceDiff) :
  price_diff_data rows = Ok diffs -> In d diffs -> orp_price d == 0 ->
  difference_pct d = 0 /\ difference d == canary_price d.
Proof.
  intros H Hd Hz. unfold price_diff_data in H. apply diffs_inv in H.
  cbn [app] in H. subst diffs. apply in_flat_map in Hd.
  destruct Hd as (row & _ & Hd). unfold Spec.diff_entry in Hd.
  destruct (parse_price (Canary_Wharf row)) as [c| |]; try contradiction.
  destruct (parse_price (Orpington row)) as [o| |]; try contradiction.
  destruct Hd as [<-|[]]. cbn [orp_price difference_pct difference canary_price] in *.
  split.
  - destruct (Qlt_le_dec 0 o) as [Hlt|_]; [|reflexivity].
    exfalso. rewrite Hz in Hlt. now apply (Qlt_irrefl 0).
  - rewrite Qred_correct, Hz. ring.
Qed.

End ZeroPrice.

Lemma zero_orpington_price_witness :
  App2.difference_pct (App2.mkDiff "Parking" 5%Q 0%Q 5%Q 0%Q) = 0%Q
  /\ (App2.difference (App2.mkDiff "Parking" 5%Q 0%Q 5%Q 0%Q) == 5)%Q.
Proof.
  apply (zero_orpington_price_gives_zero_percent
           [App2.mkRow "Parking" (Some "5") (Some "0.00")]
           [App2.mkDiff "Parking" 5%Q 0%Q 5%Q 0%Q]).
  - reflexivity.
  - now left.
  - reflexivity.
Defined.

(** ** The two clinician counts per service *)

Section CountsOfBothVersions.

Import PyStr.

Lemma lower_app (a b : string) : lower (a ++ b)%string = (lower a ++ lower b)%string.
Proof. induction a as [|c a IH]; [reflexivity|]. cbn. now rewrite IH. Qed.

(** A substring stays one when both texts are lower-cased. *)
Lemma contains_lower (sub s : string) :
  contains sub s = true -> contains (lower sub) (lower s) = true.
Proof.
  rewrite !contains_iff. intros (a & b & ->).
  exists (lower a), (lower b). now rewrite !lower_app.
Qed.

Lemma filter_sub_length {A : Type} (p q r : A -> bool) (l : list A) :
  (forall a, p a = true -> r a = true) ->
  List.length (filter p (filter q l)) <= List.length (filter r l).
Proof.
  intros H. induction l as [|a l IH]; [reflexivity|].
  cbn [filter]. destruct (q a); cbn [filter].
  - destruct (p a) eqn:E.
    + rewrite (H a E). cbn [List.length]. lia.
    + destruct (r a); cbn [List.length]; lia.
  - destruct (r a); cbn [List.length]; lia.
Qed.

(** X24: For a service name without regular-expression metacharacters, the count
    of app2.py (case-sensitive, mapped clinicians only) never exceeds the
    count of app.py (case-insensitive, every row of the mapping) on the same
    mapping. *)
Theorem app2_count_at_most_app_count
        (service : string) (services_offered : list string) :
  existsb App.regex_meta (list_ascii_of_string service) = false ->
  exists n,
    App.doctor_count service (map Some services_offered) = Some n
    /\ App2.doctor_count service services_offered <= n.
Proof.
  intros Hlit. rewrite (doctor_count1_filter service services_offered Hlit).
  eexists. split; [reflexivity|].
  rewrite doctor_count2_filter. unfold Spec.clinician_count, App2.mapped_df.
  apply filter_sub_length. intros t. apply contains_lower.
Qed.

End CountsOfBothVersions.

Lemma app2_count_witness :
  exists n,
    App.doctor_count "Match" (map Some ["No Match"; "MATCH day physio"; "Match"]) = Some n
    /\ App2.doctor_count "Match" ["No Match"; "MATCH day physio"; "Match"] <= n.
Proof. apply app2_count_at_most_app_count. reflexivity. Defined.
